(** * Teeth3DS dataset adapter: a shallow embedding and its properties

    The development follows [torch_geometric/datasets/teeth3ds.py].  The
    Python standard-library string helpers the class relies on come first,
    then the external collaborators (mesh loader, sampler, random number
    generator, file system) gathered in a record, then [process_file],
    [processed_file_names], [process] and [len]. *)

From Stdlib Require Import String Ascii DecimalString Lia.
From stdpp Require Import base option list gmap strings.

Local Open Scope string_scope.
Local Open Scope list_scope.

(** ** Python string helpers *)

(** [str.split(sep)] for a non-empty separator: the pieces between the
    non-overlapping occurrences of [sep], scanned left to right.  [skip]
    counts the characters of a matched separator still to be dropped and
    [cur] is the piece being read. *)
Fixpoint split_go (sep s : string) (skip : nat) (cur : string) : list string :=
  match s with
  | EmptyString => [cur]
  | String c s' =>
      match skip with
      | S k => split_go sep s' k cur
      | O =>
          if String.prefix sep s
          then cur :: split_go sep s' (String.length sep - 1) ""
          else split_go sep s' 0 (cur +:+ String c "")
      end
  end.

Definition py_split (sep s : string) : list string := split_go sep s 0 "".

(** [sep.join(parts)]. *)
Fixpoint py_join (sep : string) (parts : list string) : string :=
  match parts with
  | [] => ""
  | [p] => p
  | p :: ps => p +:+ sep +:+ py_join sep ps
  end.

(** [s.replace(old, new)] replaces every non-overlapping occurrence of a
    non-empty [old], left to right: the pieces of [s.split(old)] joined by
    [new]. *)
Definition py_replace (old new s : string) : string :=
  py_join new (py_split old s).

(** The line boundaries of [str.splitlines] among the code points below 256. *)
Definition is_linebreak (c : ascii) : bool :=
  match nat_of_ascii c with
  | 10 | 11 | 12 | 13 | 28 | 29 | 30 | 133 => true
  | _ => false
  end.

(** [str.splitlines()]: a carriage return followed by a line feed is one
    boundary, and a final boundary opens no empty last line. *)
Fixpoint splitlines_go (s : string) (cur : string) : list string :=
  match s with
  | EmptyString => if String.eqb cur "" then [] else [cur]
  | String c s' =>
      if is_linebreak c then
        cur ::
        match s' with
        | String c' s'' =>
            if (nat_of_ascii c =? 13)%nat && (nat_of_ascii c' =? 10)%nat
            then splitlines_go s'' ""
            else splitlines_go s' ""
        | EmptyString => splitlines_go s' ""
        end
      else splitlines_go s' (cur +:+ String c "")
  end.

Definition splitlines (s : string) : list string := splitlines_go s "".

(** [str.startswith] and [str.endswith] for one character. *)
Definition starts_with_slash (s : string) : bool :=
  match s with
  | String c _ => (nat_of_ascii c =? 47)%nat
  | EmptyString => false
  end.

Fixpoint ends_with_slash (s : string) : bool :=
  match s with
  | EmptyString => false
  | String c EmptyString => (nat_of_ascii c =? 47)%nat
  | String _ s' => ends_with_slash s'
  end.

(** [os.path.join(a, b)] on POSIX. *)
Definition osp_join (a b : string) : string :=
  if starts_with_slash b then b
  else if String.eqb a "" || ends_with_slash a then a +:+ b
  else a +:+ "/" +:+ b.

(** The decimal text an f-string gives a non-negative integer. *)
Definition show_nat (n : nat) : string :=
  NilEmpty.string_of_uint (Nat.to_uint n).

(** ** Errors *)

(** The exceptions that can leave the code. *)
Inductive error : Type :=
| MeshLoadError (path : string)   (* [trimesh.load_mesh] could not read the file *)
| OSError (path : string)         (* [open] failed *)
| IndexError                      (* a sequence indexed out of range *)
| ValueError                      (* [np.random.choice] on an empty population *)
| AssertionError (msg : string)   (* the [assert] on the sample size *)
| KeyError (key : string)         (* a dictionary has no such key *)
| RuntimeError.                   (* [reshape(-1, 3)] on a size not divisible by 3 *)

Inductive result (A : Type) : Type :=
| Ok (a : A)
| Err (e : error).
Arguments Ok {A} a.
Arguments Err {A} e.

Definition bind {A B : Type} (r : result A) (k : A -> result B) : result B :=
  match r with
  | Ok a => k a
  | Err e => Err e
  end.

Notation "x <- e ;; k" := (bind e (fun x => k))
  (at level 100, e at next level, right associativity).

Definition from_opt {A : Type} (e : error) (o : option A) : result A :=
  match o with
  | Some a => Ok a
  | None => Err e
  end.

(** A loop that stops at the first exception. *)
Fixpoint map_result {A B : Type} (f : A -> result B) (l : list A) : result (list B) :=
  match l with
  | [] => Ok []
  | a :: l' => b <- f a ;; bs <- map_result f l' ;; Ok (b :: bs)
  end.

Section Embedding.
Context {num flt : Type}.

(** ** Data model *)

(** A row of a [(k, 3)] array. *)
Definition vec3 (T : Type) : Type := (T * T * T)%type.

(** The tensors the record holds are one-dimensional, or have three
    columns ([torch.empty(0, 3)], [reshape(-1, 3)], the vertex arrays). *)
Inductive Tensor : Type :=
| Vec (xs : list flt)
| Mat3 (rows : list (vec3 flt)).

(** [len(t)], the size of the first dimension. *)
Definition tensor_len (t : Tensor) : nat :=
  match t with
  | Vec xs => length xs
  | Mat3 rows => length rows
  end.

Definition tensor_shape (t : Tensor) : list nat :=
  match t with
  | Vec xs => [length xs]
  | Mat3 rows => [length rows; 3]
  end.

(** What the code reads of a [trimesh] mesh. *)
Record Mesh : Type := {
  vertices : list (vec3 num);
  vertex_normals : list (vec3 num)
}.

(** [trimesh.load_mesh] gives one geometry or a list of them. *)
Inductive Loaded : Type :=
| Single (m : Mesh)
| Several (ms : list Mesh).

(** The segmentation annotation file. *)
Record SegAnnotations : Type := {
  labels : list num;
  instances_of : list num
}.

(** One entry of the ["objects"] list of a keypoint file. *)
Record Keypoint : Type := {
  kp_class : string;
  kp_coord : list num
}.

(** The [Data] object [process_file] builds. *)
Record Data : Type := {
  pos : Tensor;
  x : Tensor;
  y : Tensor;
  instances : Tensor;
  jaw : string;
  mesial : Tensor;
  distal : Tensor;
  cusp : Tensor;
  inner_point : Tensor;
  outer_point : Tensor;
  facial_point : Tensor
}.

(** The libraries and the file system the class calls into.  [entropy] is
    the sequence of raw draws of numpy's global generator, and a position
    in it is the generator's state.  [seg_file] and [kpt_file] give the
    parsed content of a path, [None] when [osp.exists] is false. *)
Record World : Type := {
  load_mesh : string -> option Loaded;
  fps_sampling : list (vec3 num) -> nat -> nat -> nat -> list nat;
  entropy : nat -> nat;
  to_float : num -> flt;
  seg_file : string -> option SegAnnotations;
  kpt_file : string -> option (list Keypoint);
  glob : string -> list string;
  read_text : string -> option string
}.

(** The constructor arguments, with [raw_dir] of the base class. *)
Record Config : Type := {
  root : string;
  raw_dir : string;
  split : string;
  is_train : bool;
  n_sample : nat;
  pre_transform : option (Data -> Data);
  pre_filter : option (Data -> bool)
}.

Definition mode (cfg : Config) : string :=
  if is_train cfg then "training" else "testing".

Definition processed_dir (cfg : Config) : string :=
  osp_join (root cfg) ("processed_" +:+ split cfg +:+ "_" +:+ mode cfg).

(** ** Sampling *)

(** [np.random.choice(V, n, replace=True)] from generator state [g]:
    the indices and the state after the draws. *)
Definition random_choice (w : World) (V n g : nat) : result (list nat * nat) :=
  if (V =? 0)%nat
  then (if (n =? 0)%nat then Ok ([], g) else Err ValueError)
  else Ok (map (fun i => entropy w (g + i) `mod` V) (seq 0 n), g + n).

(** [arr[sampled_indices]] with an array of unsigned indices. *)
Definition gather {A : Type} (arr : list A) (idx : list nat) : result (list A) :=
  map_result (fun i => from_opt IndexError (arr !! i)) idx.

Definition to_float3 (w : World) (p : vec3 num) : vec3 flt :=
  let '(a, b, c) := p in (to_float w a, to_float w b, to_float w c).

Definition mismatch_message (n got : nat) (file_path : string) : string :=
  "Sampled points mismatch: Expected " +:+ show_nat n +:+ "," +:+
  " but got " +:+ show_nat got +:+ " for " +:+ file_path.

Definition sample_indices (w : World) (cfg : Config) (mesh : Mesh) (g : nat)
  : result (list nat * nat) :=
  if (length (vertices mesh) <? n_sample cfg)%nat
  then random_choice w (length (vertices mesh)) (n_sample cfg) g
  else Ok (fps_sampling w (vertices mesh) (n_sample cfg) 5 0, g).

(** ** Landmarks *)

Definition landmark_names : list string :=
  ["Mesial"; "Distal"; "Cusp"; "InnerPoint"; "OuterPoint"; "FacialPoint"].

(** [keypoints_dict[key].extend(coord)]. *)
Fixpoint dict_extend (key : string) (coord : list num)
    (d : list (string * list num)) : result (list (string * list num)) :=
  match d with
  | [] => Err (KeyError key)
  | (k, v) :: d' =>
      if String.eqb key k then Ok ((k, v ++ coord) :: d')
      else r <- dict_extend key coord d' ;; Ok ((k, v) :: r)
  end.

Fixpoint fill_keypoints (objs : list Keypoint)
    (d : list (string * list num)) : result (list (string * list num)) :=
  match objs with
  | [] => Ok d
  | o :: objs' =>
      d' <- dict_extend (kp_class o) (kp_coord o) d ;;
      fill_keypoints objs' d'
  end.

(** [reshape(-1, 3)] of a flat tensor. *)
Fixpoint reshape3 (xs : list flt) : result (list (vec3 flt)) :=
  match xs with
  | [] => Ok []
  | a :: b :: c :: xs' => rows <- reshape3 xs' ;; Ok ((a, b, c) :: rows)
  | _ => Err RuntimeError
  end.

Definition keypoint_tensors (w : World) (landmarks_annotation_path : string)
  : result (list (string * Tensor)) :=
  match kpt_file w landmarks_annotation_path with
  | Some objs =>
      d <- fill_keypoints objs (map (fun key => (key, [])) landmark_names) ;;
      map_result
        (fun kv => rows <- reshape3 (map (to_float w) (snd kv)) ;;
                   Ok (fst kv, Mat3 rows))
        d
  | None => Ok (map (fun key => (key, Mat3 [])) landmark_names)
  end.

(** [keypoint_tensors[key]]. *)
Fixpoint dict_get {V : Type} (key : string) (d : list (string * V)) : result V :=
  match d with
  | [] => Err (KeyError key)
  | (k, v) :: d' => if String.eqb key k then Ok v else dict_get key d'
  end.

(** ** [process_file] *)

Definition first_geometry (l : Loaded) : result Mesh :=
  match l with
  | Single m => Ok m
  | Several ms => from_opt IndexError (head ms)
  end.

Definition segmentation (w : World) (seg_annotation_path : string)
    (sampled_indices : list nat) : result (Tensor * Tensor) :=
  match seg_file w seg_annotation_path with
  | Some ann =>
      ls <- gather (labels ann) sampled_indices ;;
      ins <- gather (instances_of ann) sampled_indices ;;
      Ok (Vec (map (to_float w) ls), Vec (map (to_float w) ins))
  | None => Ok (Mat3 [], Mat3 [])
  end.

Definition jaw_of (file_path : string) : result string :=
  from_opt IndexError
    (py_split "_" (hd "" (py_split ".obj" file_path)) !! 1%nat).

(** Lines 146 to 217: the [Data] object, with the sampled indices and the
    generator state left behind. *)
Definition build_record (w : World) (cfg : Config) (file_path : string) (g : nat)
  : result (Data * list nat * nat) :=
  loaded <- from_opt (MeshLoadError file_path) (load_mesh w file_path) ;;
  mesh <- first_geometry loaded ;;
  sampled <- sample_indices w cfg mesh g ;;
  let '(sampled_indices, g') := sampled in
  if negb (length sampled_indices =? n_sample cfg)%nat
  then Err (AssertionError
              (mismatch_message (n_sample cfg) (length sampled_indices) file_path))
  else
    ps <- gather (vertices mesh) sampled_indices ;;
    ns <- gather (vertex_normals mesh) sampled_indices ;;
    seg <- segmentation w (py_replace ".obj" ".json" file_path) sampled_indices ;;
    let '(y_, instances_) := seg in
    kts <- keypoint_tensors w (py_replace ".obj" "__kpt.json" file_path) ;;
    jaw_ <- jaw_of file_path ;;
    mesial_ <- dict_get "Mesial" kts ;;
    distal_ <- dict_get "Distal" kts ;;
    cusp_ <- dict_get "Cusp" kts ;;
    inner_ <- dict_get "InnerPoint" kts ;;
    outer_ <- dict_get "OuterPoint" kts ;;
    facial_ <- dict_get "FacialPoint" kts ;;
    Ok ({| pos := Mat3 (map (to_float3 w) ps);
           x := Mat3 (map (to_float3 w) ns);
           y := y_;
           instances := instances_;
           jaw := jaw_;
           mesial := mesial_;
           distal := distal_;
           cusp := cusp_;
           inner_point := inner_;
           outer_point := outer_;
           facial_point := facial_ |}, sampled_indices, g').

(** Lines 219 to 225: the optional hooks. *)
Definition apply_pre_transform (cfg : Config) (data : Data) : Data :=
  match pre_transform cfg with
  | Some f => f data
  | None => data
  end.

Definition rejected (cfg : Config) (data : Data) : bool :=
  match pre_filter cfg with
  | Some f => negb (f data)
  | None => false
  end.

Definition process_file (w : World) (cfg : Config) (file_path : string) (g : nat)
  : result (option Data * nat) :=
  built <- build_record w cfg file_path g ;;
  let '(data, _, g') := built in
  if rejected cfg data then Ok (None, g')
  else Ok (Some (apply_pre_transform cfg data), g').

(** ** The manifest *)

Definition processed_file_names (w : World) (cfg : Config) : result (list string) :=
  let split_dir := osp_join (raw_dir cfg) (split cfg +:+ "_train_test_split") in
  let split_files := glob w (osp_join split_dir (mode cfg +:+ "*.txt")) in
  lines <- map_result
             (fun file_path =>
                content <- from_opt (OSError file_path) (read_text w file_path) ;;
                Ok (splitlines content))
             split_files ;;
  Ok (map (fun file_name => file_name +:+ ".pt") (concat lines)).

(** ** [process], [len] and [get] *)

(** What a processing pass changes: the files [torch.save] wrote under the
    processed directory (a saved [None] is an entry too) and the state of
    the random generator.  [calls] is a ghost log of the paths
    [process_file] was called with. *)
Record Store : Type := {
  cache : gmap string (option Data);
  rng : nat;
  calls : list string
}.

(** One iteration of the loop of [process]. *)
Definition process_one (w : World) (cfg : Config) (st : Store) (file : string)
  : result Store :=
  let file_name := hd "" (py_split "." file) in
  let file_path := glob w (raw_dir cfg +:+ "/**/*/*" +:+ file_name +:+ ".obj") in
  match file_path with
  | [p] =>
      r <- process_file w cfg p (rng st) ;;
      let '(data, g') := r in
      Ok {| cache := <[osp_join (processed_dir cfg) file := data]> (cache st);
            rng := g';
            calls := calls st ++ [p] |}
  | _ => Ok st
  end.

Fixpoint process_files (w : World) (cfg : Config) (files : list string) (st : Store)
  : result Store :=
  match files with
  | [] => Ok st
  | file :: files' =>
      st' <- process_one w cfg st file ;;
      process_files w cfg files' st'
  end.

Definition process (w : World) (cfg : Config) (st : Store) : result Store :=
  files <- processed_file_names w cfg ;;
  process_files w cfg files st.

Definition len (w : World) (cfg : Config) : result nat :=
  files <- processed_file_names w cfg ;;
  Ok (length files).

(** [get(idx)]: [torch.load] gives back what was saved, and fails on a path
    that holds nothing. *)
Definition get (w : World) (cfg : Config) (st : Store) (idx : nat)
  : result (option Data) :=
  files <- processed_file_names w cfg ;;
  file <- from_opt IndexError (files !! idx) ;;
  from_opt (OSError (osp_join (processed_dir cfg) file))
           (cache st !! osp_join (processed_dir cfg) file).

End Embedding.

(** ** Vocabulary of the statements *)

(** The entries of a keypoint file that carry a given class tag, in file
    order. *)
Definition entries_of {num : Type} (tag : string) (objs : list (@Keypoint num))
  : list (@Keypoint num) :=
  List.filter (fun o => String.eqb (kp_class o) tag) objs.

(** A coordinate of exactly three components as a row of floats. *)
Definition as_row {num flt : Type} (w : @World num flt) (coord : list num)
  : option (vec3 flt) :=
  match coord with
  | [a; b; c] => Some (to_float w a, to_float w b, to_float w c)
  | _ => None
  end.

(** The rows a list of entries gives: one per entry with a coordinate of
    three components, in order. *)
Definition rows_of {num flt : Type} (w : @World num flt)
    (es : list (@Keypoint num)) : list (vec3 flt) :=
  omap (fun o => as_row w (kp_coord o)) es.

Definition recognized (tag : string) : bool :=
  existsb (String.eqb tag) landmark_names.

(** The number of occurrences of a character in a string. *)
Fixpoint count_char (c : ascii) (s : string) : nat :=
  match s with
  | EmptyString => 0
  | String b s' => (if Ascii.eqb c b then 1 else 0) + count_char c s'
  end.

(** A [(k, 3)] tensor read row after row, as [flatten] does. *)
Definition flatten_rows {T : Type} (rows : list (vec3 T)) : list T :=
  flat_map (fun row : vec3 T => let '(a, b, c) := row in [a; b; c]) rows.

(** The mesh path an identifier of the manifest resolves to: the single
    match of its lookup, when there is exactly one. *)
Definition resolved {num flt : Type} (w : @World num flt) (cfg : @Config flt)
    (file : string) : list string :=
  match glob w (raw_dir cfg +:+ "/**/*/*" +:+ hd "" (py_split "." file)
                +:+ ".obj") with
  | [p] => [p]
  | _ => []
  end.

(** [os.path.basename]: what follows the last slash. *)
Definition basename (p : string) : string := List.last (py_split "/" p) "".

(** The name without a final [".obj"]. *)
Definition before_extension (s : string) : string :=
  let n := String.length s in
  if String.eqb (String.substring (n - 4) 4 s) ".obj"
  then String.substring 0 (n - 4) s
  else s.

(** The convention in the words of the specification: the second
    underscore-delimited segment of the base name before the mesh
    extension. *)
Definition jaw_convention (file_path : string) : option string :=
  py_split "_" (before_extension (basename file_path)) !! 1%nat.

(** ** Concrete scenarios

    A three-vertex scan of an upper jaw with both annotation files, a scan
    of a lower jaw with none, a scan whose file name has no underscore, and
    a manifest that also names an identifier
    no file matches and one that two files match.  Numbers are integers
    and the cast to [torch.float] is the identity. *)

Definition demo_mesh : @Mesh Z :=
  {| vertices := [(0, 0, 0); (10, 0, 0); (0, 10, 0)]%Z;
     vertex_normals := [(0, 0, 1); (0, 0, 2); (0, 0, 3)]%Z |}.

Definition demo_seg : @SegAnnotations Z :=
  {| labels := [11; 12; 13]%Z; instances_of := [1; 2; 3]%Z |}.

Definition demo_kpts : list (@Keypoint Z) :=
  [ {| kp_class := "Cusp"; kp_coord := [1; 2; 3]%Z |};
    {| kp_class := "Mesial"; kp_coord := [4; 5; 6]%Z |};
    {| kp_class := "Cusp"; kp_coord := [7; 8; 9]%Z |} ].

Definition upper_obj : string := "data/raw/upper/p7/p7_upper.obj".
Definition lower_obj : string := "data/raw/lower/p8/p8_lower.obj".
Definition plain_obj : string := "data/raw/lower/p6/scan.obj".

(** A sampler that keeps the first [n] vertices. *)
Definition first_n (pts : list (vec3 Z)) (n h start_idx : nat) : list nat :=
  seq 0 n.

(** A sampler that gives one index too few. *)
Definition one_short (pts : list (vec3 Z)) (n h start_idx : nat) : list nat :=
  seq 0 (n - 1).

Definition demo_world_with
    (sampler : list (vec3 Z) -> nat -> nat -> nat -> list nat)
    (kpts : list (@Keypoint Z)) : @World Z Z :=
  {| load_mesh := fun p =>
       if String.eqb p upper_obj then Some (Single demo_mesh)
       else if String.eqb p lower_obj then Some (Several [demo_mesh])
       else if String.eqb p plain_obj then Some (Single demo_mesh)
       else None;
     fps_sampling := sampler;
     entropy := fun i => 7 * i + 5;
     to_float := fun z => z;
     seg_file := fun p =>
       if String.eqb p "data/raw/upper/p7/p7_upper.json" then Some demo_seg
       else None;
     kpt_file := fun p =>
       if String.eqb p "data/raw/upper/p7/p7_upper__kpt.json" then Some kpts
       else None;
     glob := fun pat =>
       if String.eqb pat "data/raw/Teeth3DS_train_test_split/training*.txt"
       then ["data/raw/Teeth3DS_train_test_split/training_upper.txt";
             "data/raw/Teeth3DS_train_test_split/training_lower.txt"]
       else if String.eqb pat "data/raw/**/*/*p7_upper.obj" then [upper_obj]
       else if String.eqb pat "data/raw/**/*/*p8_lower.obj" then [lower_obj]
       else if String.eqb pat "data/raw/**/*/*p9_lower.obj"
       then ["data/raw/lower/p9/p9_lower.obj"; "data/raw/lower/xp9/xp9_lower.obj"]
       else [];
     read_text := fun p =>
       if String.eqb p "data/raw/Teeth3DS_train_test_split/training_upper.txt"
       then Some "p7_upper
gone_upper
"
       else if String.eqb p "data/raw/Teeth3DS_train_test_split/training_lower.txt"
       then Some "p8_lower
p9_lower
p8_lower"
       else None |}.

Definition demo_world : @World Z Z := demo_world_with first_n demo_kpts.

Definition demo_cfg (n : nat) (tr : option (@Data Z -> @Data Z))
    (flt : option (@Data Z -> bool)) : @Config Z :=
  {| root := "data"; raw_dir := "data/raw"; split := "Teeth3DS";
     is_train := true; n_sample := n;
     pre_transform := tr; pre_filter := flt |}.

Definition empty_store : @Store Z :=
  {| cache := ∅; rng := 0; calls := [] |}.

(** A transform in the manner of a point-count reduction: it keeps the
    first point only, with its normal, and drops the labels. *)
Definition keep_first_point (d : @Data Z) : @Data Z :=
  {| pos := match pos d with Mat3 rows => Mat3 (take 1 rows) | t => t end;
     x := match x d with Mat3 rows => Mat3 (take 1 rows) | t => t end;
     y := Vec []; instances := Vec [];
     jaw := jaw d;
     mesial := mesial d; distal := distal d; cusp := cusp d;
     inner_point := inner_point d; outer_point := outer_point d;
     facial_point := facial_point d |}.

(** A transform that attaches a placeholder label and a placeholder
    landmark to every record. *)
Definition add_placeholders (d : @Data Z) : @Data Z :=
  {| pos := pos d; x := x d;
     y := Vec [0%Z]; instances := Vec [0%Z];
     jaw := jaw d;
     mesial := Mat3 [(0, 0, 0)%Z]; distal := distal d; cusp := Mat3 [];
     inner_point := inner_point d; outer_point := outer_point d;
     facial_point := facial_point d |}.

(** A keypoint file with one entry, whose coordinate has six components. *)
Definition wide_kpts : list (@Keypoint Z) :=
  [ {| kp_class := "Cusp"; kp_coord := [1; 2; 3; 4; 5; 6]%Z |} ].

(** A keypoint file with a class tag outside the six landmark names. *)
Definition odd_kpts : list (@Keypoint Z) :=
  [ {| kp_class := "Cusp"; kp_coord := [1; 2; 3]%Z |};
    {| kp_class := "Apex"; kp_coord := [4; 5; 6]%Z |};
    {| kp_class := "Mesial"; kp_coord := [7; 8; 9]%Z |} ].

(** The record of the upper-jaw scan for five sample points: three
    vertices, so the indices are drawn with replacement. *)
Definition upper_record_5 : @Data Z :=
  {| pos := Mat3 [(0, 10, 0); (0, 0, 0); (10, 0, 0); (0, 10, 0); (0, 0, 0)]%Z;
     x := Mat3 [(0, 0, 3); (0, 0, 1); (0, 0, 2); (0, 0, 3); (0, 0, 1)]%Z;
     y := Vec [13; 11; 12; 13; 11]%Z;
     instances := Vec [3; 1; 2; 3; 1]%Z;
     jaw := "upper";
     mesial := Mat3 [(4, 5, 6)%Z];
     distal := Mat3 [];
     cusp := Mat3 [(1, 2, 3); (7, 8, 9)]%Z;
     inner_point := Mat3 [];
     outer_point := Mat3 [];
     facial_point := Mat3 [] |}.

(** The record of the upper-jaw scan for two sample points. *)
Definition upper_record_2 : @Data Z :=
  {| pos := Mat3 [(0, 0, 0); (10, 0, 0)]%Z;
     x := Mat3 [(0, 0, 1); (0, 0, 2)]%Z;
     y := Vec [11; 12]%Z;
     instances := Vec [1; 2]%Z;
     jaw := "upper";
     mesial := Mat3 [(4, 5, 6)%Z];
     distal := Mat3 [];
     cusp := Mat3 [(1, 2, 3); (7, 8, 9)]%Z;
     inner_point := Mat3 [];
     outer_point := Mat3 [];
     facial_point := Mat3 [] |}.

(** A filter that rejects every record. *)
Definition reject_all (d : @Data Z) : bool := false.


(** Further scenarios: a world with one mesh for every path and chosen
    annotation files, a mesh without vertices, an annotation file with a
    single label, a keypoint entry of two components, and configurations
    for a split without manifest and for the test mode. *)
Definition custom_world (m : @Mesh Z) (seg : option (@SegAnnotations Z))
    (kpts : option (list (@Keypoint Z))) : @World Z Z :=
  {| load_mesh := fun _ => Some (Single m);
     fps_sampling := first_n;
     entropy := entropy demo_world;
     to_float := fun z => z;
     seg_file := fun _ => seg;
     kpt_file := fun _ => kpts;
     glob := glob demo_world;
     read_text := read_text demo_world |}.

Definition empty_mesh : @Mesh Z := {| vertices := []; vertex_normals := [] |}.

Definition short_seg : @SegAnnotations Z :=
  {| labels := [11]%Z; instances_of := [1; 2; 3]%Z |}.

Definition pair_kpts : list (@Keypoint Z) :=
  [ {| kp_class := "Cusp"; kp_coord := [1; 2]%Z |} ].

Definition other_split_cfg : @Config Z :=
  {| root := "data"; raw_dir := "data/raw"; split := "3DTeethLand_challenge";
     is_train := true; n_sample := 2;
     pre_transform := None; pre_filter := None |}.

Definition test_cfg : @Config Z :=
  {| root := "data"; raw_dir := "data/raw"; split := "Teeth3DS";
     is_train := false; n_sample := 2;
     pre_transform := None; pre_filter := None |}.

(** The store a pass over the demo manifest leaves, from the empty one. *)
Definition demo_pass : @Store Z :=
  match process demo_world (demo_cfg 2 None None) empty_store with
  | Ok st' => st'
  | Err _ => empty_store
  end.

Definition demo_files : list string :=
  ["p7_upper.pt"; "gone_upper.pt"; "p8_lower.pt"; "p9_lower.pt"; "p8_lower.pt"].

(** ** The string helpers on examples *)

Example py_split_ex1 : py_split "_" "a_b_c" = ["a"; "b"; "c"].
Proof. reflexivity. Qed.
Example py_split_ex2 : py_split ".obj" "x/y.obj" = ["x/y"; ""].
Proof. reflexivity. Qed.
Example py_split_ex3 : py_split "_" "" = [""].
Proof. reflexivity. Qed.
Example py_replace_ex : py_replace ".obj" "__kpt.json" "d/a_upper.obj" = "d/a_upper__kpt.json".
Proof. reflexivity. Qed.
Example splitlines_ex : splitlines "a
b

c
" = ["a"; "b"; ""; "c"].
Proof. reflexivity. Qed.
Example osp_join_ex : osp_join "root/raw" "x.pt" = "root/raw/x.pt".
Proof. reflexivity. Qed.
Example show_nat_ex : show_nat 307 = "307".
Proof. reflexivity. Qed.

(** ** General facts about the error monad and the loops *)

Lemma bind_Ok_inv {A B : Type} (r : result A) (k : A -> result B) (b : B) :
  bind r k = Ok b -> exists a, r = Ok a /\ k a = Ok b.
Proof.
  destruct r as [a|e]; simpl; intros H; [eauto | discriminate].
Qed.

Lemma bind_Ok_eq {A B : Type} (r : result A) (k : A -> result B) (a : A) :
  r = Ok a -> bind r k = k a.
Proof. intros ->. reflexivity. Qed.

Lemma bind_Err_eq {A B : Type} (r : result A) (k : A -> result B) (e : error) :
  r = Err e -> bind r k = Err e.
Proof. intros ->. reflexivity. Qed.

Lemma from_opt_Ok_inv {A : Type} (e : error) (o : option A) (a : A) :
  from_opt e o = Ok a -> o = Some a.
Proof. destruct o; simpl; congruence. Qed.

(** Destructs the binds of a hypothesis that says a computation returned. *)
Ltac ok_inv H :=
  repeat
    (let a := fresh "a" in
     let E := fresh "E" in
     apply bind_Ok_inv in H; destruct H as (a & E & H)).

Lemma map_result_Forall2 {A B : Type} (f : A -> result B) (l : list A) (l' : list B) :
  map_result f l = Ok l' -> Forall2 (fun a b => f a = Ok b) l l'.
Proof.
  revert l'. induction l as [|a l IH]; simpl; intros l' H.
  - injection H as <-. constructor.
  - ok_inv H. injection H as <-. constructor; auto.
Qed.

Lemma Forall2_map_result {A B : Type} (f : A -> result B) (l : list A) (l' : list B) :
  Forall2 (fun a b => f a = Ok b) l l' -> map_result f l = Ok l'.
Proof.
  induction 1 as [|a b l l' Hab _ IH]; simpl; [reflexivity|].
  rewrite Hab. simpl. rewrite IH. reflexivity.
Qed.

Section GatherFacts.
Context {A : Type}.
Implicit Types (arr l : list A) (idx : list nat).

Lemma gather_Forall2 arr idx l :
  gather arr idx = Ok l -> Forall2 (fun i a => arr !! i = Some a) idx l.
Proof.
  intros H. apply map_result_Forall2 in H.
  eapply Forall2_impl; [exact H|]. simpl. intros i a Hi.
  destruct (arr !! i); simpl in Hi; congruence.
Qed.

Lemma gather_length arr idx l :
  gather arr idx = Ok l -> length l = length idx.
Proof.
  intros H. apply gather_Forall2 in H. symmetry. eapply Forall2_length, H.
Qed.


Lemma gather_elem_of arr idx l a :
  gather arr idx = Ok l -> a ∈ l -> a ∈ arr.
Proof.
  intros H Ha. apply gather_Forall2 in H.
  apply list_elem_of_lookup in Ha as (i & Hi).
  destruct (Forall2_lookup_r _ _ _ _ _ H Hi) as (j & _ & Hj).
  eapply list_elem_of_lookup_2, Hj.
Qed.

Lemma gather_in_range arr idx l :
  gather arr idx = Ok l -> Forall (fun j => j < length arr) idx.
Proof.
  intros H. apply gather_Forall2 in H.
  apply Forall_forall. intros j Hj.
  apply list_elem_of_lookup in Hj as (i & Hi).
  destruct (Forall2_lookup_l _ _ _ _ _ H Hi) as (a & _ & Ha).
  eapply lookup_lt_Some, Ha.
Qed.

Lemma gather_total arr idx :
  Forall (fun j => j < length arr) idx -> exists l, gather arr idx = Ok l.
Proof.
  induction 1 as [|j idx Hj _ (l & IH)]; [exists []; reflexivity|].
  destruct (lookup_lt_is_Some_2 arr j Hj) as (a & Ha).
  exists (a :: l). unfold gather in *. simpl. rewrite Ha. simpl.
  rewrite IH. reflexivity.
Qed.

End GatherFacts.

(** ** What [build_record] and [process_file] did when they returned *)

Section ProcessFileFacts.
Context {num flt : Type}.
Implicit Types (w : @World num flt) (cfg : @Config flt) (d : @Data flt).

(** Every step of [build_record] returned, the size check passed and the
    fields of the record are the values the steps gave. *)
Lemma build_record_inv w cfg path g d idx g' :
  build_record w cfg path g = Ok (d, idx, g') ->
  exists loaded mesh ps ns kts,
    load_mesh w path = Some loaded /\
    first_geometry loaded = Ok mesh /\
    sample_indices w cfg mesh g = Ok (idx, g') /\
    length idx = n_sample cfg /\
    gather (vertices mesh) idx = Ok ps /\
    gather (vertex_normals mesh) idx = Ok ns /\
    pos d = Mat3 (map (to_float3 w) ps) /\
    x d = Mat3 (map (to_float3 w) ns) /\
    segmentation w (py_replace ".obj" ".json" path) idx = Ok (y d, instances d) /\
    keypoint_tensors w (py_replace ".obj" "__kpt.json" path) = Ok kts /\
    jaw_of path = Ok (jaw d) /\
    dict_get "Mesial" kts = Ok (mesial d) /\
    dict_get "Distal" kts = Ok (distal d) /\
    dict_get "Cusp" kts = Ok (cusp d) /\
    dict_get "InnerPoint" kts = Ok (inner_point d) /\
    dict_get "OuterPoint" kts = Ok (outer_point d) /\
    dict_get "FacialPoint" kts = Ok (facial_point d).
Proof.
  unfold build_record. intros H.
  apply bind_Ok_inv in H as (loaded & Hload & H).
  apply from_opt_Ok_inv in Hload.
  apply bind_Ok_inv in H as (mesh & Hmesh & H).
  apply bind_Ok_inv in H as ([idx0 g0] & Hsample & H).
  destruct (length idx0 =? n_sample cfg)%nat eqn:Hlen; simpl in H; [|discriminate].
  apply Nat.eqb_eq in Hlen.
  apply bind_Ok_inv in H as (ps & Hps & H).
  apply bind_Ok_inv in H as (ns & Hns & H).
  apply bind_Ok_inv in H as ([y0 i0] & Hseg & H).
  apply bind_Ok_inv in H as (kts & Hkts & H).
  apply bind_Ok_inv in H as (j & Hjaw & H).
  apply bind_Ok_inv in H as (t1 & H1 & H).
  apply bind_Ok_inv in H as (t2 & H2 & H).
  apply bind_Ok_inv in H as (t3 & H3 & H).
  apply bind_Ok_inv in H as (t4 & H4 & H).
  apply bind_Ok_inv in H as (t5 & H5 & H).
  apply bind_Ok_inv in H as (t6 & H6 & H).
  injection H as <- <- <-. simpl.
  exists loaded, mesh, ps, ns, kts. repeat split; assumption.
Qed.


(** A returned record is the built record after the optional transform,
    and the filter did not reject the built record. *)
Lemma process_file_Some_inv w cfg path g r g' :
  process_file w cfg path g = Ok (Some r, g') ->
  exists d idx,
    build_record w cfg path g = Ok (d, idx, g') /\
    rejected cfg d = false /\
    r = apply_pre_transform cfg d.
Proof.
  unfold process_file. intros H.
  apply bind_Ok_inv in H as ([[d idx] g0] & Hb & H).
  destruct (rejected cfg d) eqn:Hrej; [discriminate|].
  injection H as <- <-. eauto.
Qed.

Lemma process_file_None_inv w cfg path g g' :
  process_file w cfg path g = Ok (None, g') ->
  exists d idx,
    build_record w cfg path g = Ok (d, idx, g') /\ rejected cfg d = true.
Proof.
  unfold process_file. intros H.
  apply bind_Ok_inv in H as ([[d idx] g0] & Hb & H).
  destruct (rejected cfg d) eqn:Hrej; [|discriminate].
  injection H as <-. eauto.
Qed.

Lemma process_file_of_build w cfg path g d idx g' :
  build_record w cfg path g = Ok (d, idx, g') ->
  process_file w cfg path g =
    if rejected cfg d then Ok (None, g')
    else Ok (Some (apply_pre_transform cfg d), g').
Proof. unfold process_file. intros ->. reflexivity. Qed.

Lemma process_file_build_Err w cfg path g e :
  build_record w cfg path g = Err e -> process_file w cfg path g = Err e.
Proof. unfold process_file. intros ->. reflexivity. Qed.

Lemma apply_pre_transform_None cfg d :
  pre_transform cfg = None -> apply_pre_transform cfg d = d.
Proof. unfold apply_pre_transform. intros ->. reflexivity. Qed.

End ProcessFileFacts.

(** ** Sampling (C1) *)

Section Sampling.
Context {num flt : Type}.
Implicit Types (w : @World num flt) (cfg : @Config flt) (d : @Data flt).

Lemma random_choice_inv w V n g idx g' :
  V < n -> random_choice w V n g = Ok (idx, g') ->
  idx = map (fun i => entropy w (g + i) `mod` V) (seq 0 n) /\ g' = g + n /\ 0 < V.
Proof.
  unfold random_choice. intros Hlt H.
  destruct (V =? 0)%nat eqn:HV.
  - apply Nat.eqb_eq in HV. subst V.
    destruct (n =? 0)%nat eqn:Hn; [apply Nat.eqb_eq in Hn; lia | discriminate].
  - apply Nat.eqb_neq in HV. injection H as <- <-. repeat split; lia.
Qed.

Lemma sample_indices_inv w cfg mesh g idx g' :
  sample_indices w cfg mesh g = Ok (idx, g') ->
  (length (vertices mesh) < n_sample cfg ->
     idx = map (fun i => entropy w (g + i) `mod` length (vertices mesh))
               (seq 0 (n_sample cfg)) /\
     g' = g + n_sample cfg) /\
  (n_sample cfg <= length (vertices mesh) ->
     idx = fps_sampling w (vertices mesh) (n_sample cfg) 5 0 /\ g' = g).
Proof.
  unfold sample_indices. intros H.
  destruct (length (vertices mesh) <? n_sample cfg)%nat eqn:Hlt.
  - apply Nat.ltb_lt in Hlt. split; [|lia].
    intros _. destruct (random_choice_inv _ _ _ _ _ _ Hlt H) as (? & ? & _). auto.
  - apply Nat.ltb_ge in Hlt. split; [lia|].
    intros _. injection H as <- <-. auto.
Qed.

(** C1, in the form that holds of the code. When [process_file] returns a
    record, that record is the record it built, passed through
    [pre_transform] when one is configured (and returned as it is when none
    is). In the built record positions and normals both have length
    [n_sample]: they are the vertices and the vertex normals of the first
    loaded geometry gathered at one array of [n_sample] indices, so every
    point is an original vertex. With fewer vertices than [n_sample] the
    indices are the next [n_sample] draws of the generator reduced into the
    vertex range; otherwise they are what the farthest-point sampler
    returned for [n_sample], [h = 5] and start index 0. *)
Theorem C1_sample_size w cfg path g r g' :
  process_file w cfg path g = Ok (Some r, g') ->
  exists d loaded mesh idx ps ns,
    r = apply_pre_transform cfg d /\
    (pre_transform cfg = None -> r = d) /\
    load_mesh w path = Some loaded /\
    first_geometry loaded = Ok mesh /\
    length idx = n_sample cfg /\
    gather (vertices mesh) idx = Ok ps /\
    gather (vertex_normals mesh) idx = Ok ns /\
    pos d = Mat3 (map (to_float3 w) ps) /\
    x d = Mat3 (map (to_float3 w) ns) /\
    tensor_len (pos d) = n_sample cfg /\
    tensor_len (x d) = n_sample cfg /\
    Forall (fun p => p ∈ vertices mesh) ps /\
    (length (vertices mesh) < n_sample cfg ->
       idx = map (fun i => entropy w (g + i) `mod` length (vertices mesh))
                 (seq 0 (n_sample cfg)) /\
       g' = g + n_sample cfg) /\
    (n_sample cfg <= length (vertices mesh) ->
       idx = fps_sampling w (vertices mesh) (n_sample cfg) 5 0 /\ g' = g).
Proof.
  intros H.
  apply process_file_Some_inv in H as (d & idx & Hb & _ & Hr).
  apply build_record_inv in Hb
    as (loaded & mesh & ps & ns & kts & Hload & Hmesh & Hs & Hlen & Hps & Hns
        & Hpos & Hx & _).
  exists d, loaded, mesh, idx, ps, ns.
  pose proof (gather_length _ _ _ Hps) as Lps.
  pose proof (gather_length _ _ _ Hns) as Lns.
  destruct (sample_indices_inv _ _ _ _ _ _ Hs) as (Hrand & Hfps).
  repeat split; try assumption.
  - intros Hnone. rewrite Hr. apply apply_pre_transform_None, Hnone.
  - rewrite Hpos. simpl. rewrite length_map. lia.
  - rewrite Hx. simpl. rewrite length_map. lia.
  - apply Forall_forall. intros p Hp. eapply gather_elem_of; eauto.
  - apply Hrand; assumption.
  - apply Hrand; assumption.
  - apply Hfps; assumption.
  - apply Hfps; assumption.
Qed.

End Sampling.

Lemma C1_sample_size_witness :
  process_file demo_world (demo_cfg 5 None None) upper_obj 0
    = Ok (Some upper_record_5, 5) /\
  tensor_len (pos upper_record_5) = 5 /\ tensor_len (x upper_record_5) = 5.
Proof.
  assert (H : process_file demo_world (demo_cfg 5 None None) upper_obj 0
              = Ok (Some upper_record_5, 5)) by reflexivity.
  split; [exact H|].
  destruct (C1_sample_size demo_world (demo_cfg 5 None None) upper_obj 0
              upper_record_5 5 H)
    as (d & loaded & mesh & idx & ps & ns & _ & Hd & _ & _ & _ & _ & _ & _ & _
        & Lp & Lx & _).
  rewrite (Hd eq_refl). split; [exact Lp | exact Lx].
Defined.

(** With a [pre_transform] that reduces the point count, the record
    [process_file] returns for [n_sample = 5] holds one position and one
    normal. *)
Lemma C1_counterexample :
  exists r,
    process_file demo_world (demo_cfg 5 (Some keep_first_point) None) upper_obj 0
      = Ok (Some r, 5) /\
    n_sample (demo_cfg 5 (Some keep_first_point) None) = 5 /\
    tensor_len (pos r) = 1 /\ tensor_len (x r) = 1.
Proof.
  eexists. split; [reflexivity|]. repeat split.
Qed.

(** ** Segmentation labels (C2) *)

Section Annotations.
Context {num flt : Type}.
Implicit Types (w : @World num flt) (cfg : @Config flt) (d : @Data flt).



Lemma keypoint_tensors_None w p :
  kpt_file w p = None ->
  keypoint_tensors w p = Ok (map (fun key => (key, Mat3 [])) landmark_names).
Proof. unfold keypoint_tensors. intros ->. reflexivity. Qed.


End Annotations.



(** ** The size check (C5) *)

Lemma string_app_cons (c : ascii) (s t : string) :
  String c s +:+ t = String c (s +:+ t).
Proof. reflexivity. Qed.

Lemma string_app_assoc (s t u : string) : (s +:+ t) +:+ u = s +:+ (t +:+ u).
Proof.
  induction s as [|c s IH]; [reflexivity|].
  rewrite !string_app_cons, IH. reflexivity.
Qed.

(** The diagnostic ends with the path of the file. *)
Lemma mismatch_message_names_file (n got : nat) (file_path : string) :
  mismatch_message n got file_path =
    ("Sampled points mismatch: Expected " +:+ show_nat n +:+ "," +:+
     " but got " +:+ show_nat got +:+ " for ") +:+ file_path.
Proof.
  unfold mismatch_message. rewrite !string_app_assoc. reflexivity.
Qed.

Section SizeCheck.
Context {num flt : Type}.
Implicit Types (w : @World num flt) (cfg : @Config flt).

Lemma build_record_wrong_count w cfg path g loaded mesh idx g' :
  load_mesh w path = Some loaded ->
  first_geometry loaded = Ok mesh ->
  sample_indices w cfg mesh g = Ok (idx, g') ->
  length idx <> n_sample cfg ->
  build_record w cfg path g =
    Err (AssertionError (mismatch_message (n_sample cfg) (length idx) path)).
Proof.
  intros Hload Hmesh Hs Hlen. unfold build_record.
  rewrite Hload. simpl. rewrite Hmesh. simpl. rewrite Hs. simpl.
  apply Nat.eqb_neq in Hlen. rewrite Hlen. reflexivity.
Qed.

(** C5.  When the mesh has at least [n_sample] vertices and the
    farthest-point sampler returns a number of indices other than
    [n_sample], [process_file] raises the assertion error, returns no
    record, and the message of the error ends with the path of the file. *)
Theorem C5_wrong_sample_count_fails w cfg path g loaded mesh :
  load_mesh w path = Some loaded ->
  first_geometry loaded = Ok mesh ->
  n_sample cfg <= length (vertices mesh) ->
  length (fps_sampling w (vertices mesh) (n_sample cfg) 5 0) <> n_sample cfg ->
  let got := length (fps_sampling w (vertices mesh) (n_sample cfg) 5 0) in
  process_file w cfg path g =
    Err (AssertionError (mismatch_message (n_sample cfg) got path)) /\
  exists prefix, mismatch_message (n_sample cfg) got path = prefix +:+ path.
Proof.
  intros Hload Hmesh Hge Hlen got. split.
  - apply process_file_build_Err.
    apply (build_record_wrong_count w cfg path g loaded mesh _ g Hload Hmesh);
      [|exact Hlen].
    unfold sample_indices.
    apply Nat.ltb_ge in Hge. rewrite Hge. reflexivity.
  - eexists. apply mismatch_message_names_file.
Qed.

End SizeCheck.

Lemma C5_wrong_sample_count_fails_witness :
  process_file (demo_world_with one_short demo_kpts) (demo_cfg 2 None None)
    upper_obj 0
  = Err (AssertionError
           "Sampled points mismatch: Expected 2, but got 1 for data/raw/upper/p7/p7_upper.obj").
Proof.
  assert (Hlen : length (one_short (vertices demo_mesh) 2 5 0) <> 2)
    by (simpl; lia).
  assert (Hge : 2 <= length (vertices demo_mesh)) by (simpl; lia).
  exact (proj1 (C5_wrong_sample_count_fails
                  (demo_world_with one_short demo_kpts) (demo_cfg 2 None None)
                  upper_obj 0 (Single demo_mesh) demo_mesh
                  eq_refl eq_refl Hge Hlen)).
Defined.

(** ** The jaw token (C4) *)

(** C4.  [process_file] splits the whole path, not the base name: a
    directory with an underscore in its name shifts the segments, and the
    jaw of [/data/my_scans/patient007_upper_scan.obj] comes out as
    [scans/patient007], where the convention gives [upper].  For the bare
    file name, and for a path without underscores above the file, the
    code gives the convention's token. *)
Theorem C4_jaw_splits_whole_path :
  jaw_of "/data/my_scans/patient007_upper_scan.obj" = Ok "scans/patient007" /\
  jaw_convention "/data/my_scans/patient007_upper_scan.obj" = Some "upper" /\
  jaw_of "patient007_upper_scan.obj" = Ok "upper" /\
  jaw_of "/data/scans/patient007_upper_scan.obj" = Ok "upper".
Proof. repeat split. Qed.

(** ** Landmarks (C7, C10) *)

Section Landmarks.
Context {num flt : Type}.
Implicit Types (w : @World num flt) (cfg : @Config flt)
  (objs : list (@Keypoint num)) (dict : list (string * list num)).

Lemma eqb_sym_str (a b : string) : String.eqb a b = String.eqb b a.
Proof.
  destruct (String.eqb_spec a b) as [->|Hne].
  - symmetry. apply String.eqb_refl.
  - symmetry. apply String.eqb_neq. congruence.
Qed.

Lemma dict_extend_missing key coord dict :
  key ∉ map fst dict -> dict_extend key coord dict = Err (KeyError key).
Proof.
  induction dict as [|[k v] dict IH]; simpl; intros Hk; [reflexivity|].
  destruct (String.eqb_spec key k) as [->|Hne].
  - exfalso. apply Hk. left.
  - rewrite IH; [reflexivity|]. intros Hin. apply Hk. right. exact Hin.
Qed.

(** On a dictionary without repeated keys, extending the list under a
    present key changes that entry and no other. *)
Lemma dict_extend_present key coord dict :
  key ∈ map fst dict -> NoDup (map fst dict) ->
  dict_extend key coord dict =
    Ok (map (fun kv => (fst kv,
                        if String.eqb key (fst kv) then snd kv ++ coord
                        else snd kv)) dict).
Proof.
  induction dict as [|[k v] dict IH]; simpl; intros Hk Hnd.
  - inversion Hk.
  - apply NoDup_cons in Hnd as (Hnotin & Hnd).
    destruct (String.eqb_spec key k) as [->|Hne].
    + f_equal. f_equal. symmetry.
      transitivity (map (fun kv : string * list num => kv) dict);
        [|apply map_id].
      apply map_ext_in. intros [k' v'] Hin. simpl.
      destruct (String.eqb_spec k k') as [->|_]; [|reflexivity].
      exfalso. apply Hnotin. apply list_elem_of_In, in_map_iff.
      exists (k', v'). split; [reflexivity | exact Hin].
    + apply elem_of_cons in Hk as [Hk|Hk]; [congruence|].
      rewrite (IH Hk Hnd). reflexivity.
Qed.

Lemma map_fst_extend key coord dict :
  map fst (map (fun kv : string * list num =>
                  (fst kv, if String.eqb key (fst kv) then snd kv ++ coord
                           else snd kv)) dict)
  = map fst dict.
Proof. rewrite map_map. reflexivity. Qed.

(** After the loop over a file whose class tags are all keys, each key
    holds what it held before followed by the coordinates of the entries
    with that tag, flattened, in file order. *)
Lemma fill_keypoints_present objs : forall dict,
  NoDup (map fst dict) ->
  Forall (fun o => kp_class o ∈ map fst dict) objs ->
  fill_keypoints objs dict =
    Ok (map (fun kv => (fst kv,
                        snd kv ++ concat (map kp_coord (entries_of (fst kv) objs))))
            dict).
Proof.
  induction objs as [|o objs IH]; intros dict Hnd Hall; simpl.
  - f_equal. symmetry.
    transitivity (map (fun kv : string * list num => kv) dict); [|apply map_id].
    apply map_ext. intros [k v]. simpl. rewrite app_nil_r. reflexivity.
  - apply Forall_cons in Hall as (Ho & Hall).
    rewrite (dict_extend_present _ _ _ Ho Hnd). simpl.
    rewrite IH.
    + f_equal. rewrite map_map. apply map_ext. intros [k v]. simpl.
      rewrite (eqb_sym_str (kp_class o) k).
      destruct (String.eqb k (kp_class o)); simpl.
      * rewrite <- app_assoc. reflexivity.
      * reflexivity.
    + rewrite map_fst_extend. exact Hnd.
    + rewrite map_fst_extend. exact Hall.
Qed.

(** The loop stops with a [KeyError] at the first class tag that is not a
    key. *)
Lemma fill_keypoints_unknown objs : forall dict,
  NoDup (map fst dict) ->
  Exists (fun o => kp_class o ∉ map fst dict) objs ->
  exists tag,
    (tag ∉ map fst dict) /\ (tag ∈ map kp_class objs) /\
    fill_keypoints objs dict = Err (KeyError tag).
Proof.
  induction objs as [|o objs IH]; intros dict Hnd Hex; simpl.
  - inversion Hex.
  - destruct (decide (kp_class o ∈ map fst dict)) as [Hin|Hout].
    + apply Exists_cons in Hex as [Ho|Hex]; [contradiction|].
      rewrite (dict_extend_present _ _ _ Hin Hnd). simpl.
      destruct (IH (map (fun kv : string * list num =>
                           (fst kv, if String.eqb (kp_class o) (fst kv)
                                    then snd kv ++ kp_coord o else snd kv)) dict))
        as (tag & Ht & Hin' & Hfill).
      * rewrite map_fst_extend. exact Hnd.
      * rewrite map_fst_extend. exact Hex.
      * exists tag. rewrite map_fst_extend in Ht.
        split; [exact Ht|]. split; [right; exact Hin' | exact Hfill].
    + exists (kp_class o). split; [exact Hout|]. split; [left|].
      rewrite (dict_extend_missing _ _ _ Hout). reflexivity.
Qed.

(** Flattened coordinates of three components each reshape to one row per
    coordinate, in order. *)
Lemma reshape3_rows w (es : list (@Keypoint num)) :
  Forall (fun o => length (kp_coord o) = 3) es ->
  reshape3 (map (to_float w) (concat (map kp_coord es)))
    = Ok (rows_of w es) /\
  Forall2 (fun o row => as_row w (kp_coord o) = Some row) es (rows_of w es).
Proof.
  unfold rows_of.
  induction 1 as [|o es Ho _ (Hr & Hrows)]; simpl.
  - split; [reflexivity | constructor].
  - destruct (kp_coord o) as [|a [|b [|c [|? ?]]]] eqn:Hc; try discriminate.
    simpl. rewrite Hr. simpl.
    split; [reflexivity|]. constructor; [|exact Hrows].
    rewrite Hc. reflexivity.
Qed.

Lemma Forall_entries_of (P : @Keypoint num -> Prop) tag objs :
  Forall P objs -> Forall P (entries_of tag objs).
Proof.
  intros H. apply Forall_forall. intros o Ho.
  apply list_elem_of_In, filter_In in Ho as (Ho & _).
  rewrite Forall_forall in H. apply H, list_elem_of_In, Ho.
Qed.

Lemma recognized_elem_of tag : recognized tag = true <-> tag ∈ landmark_names.
Proof.
  unfold recognized. rewrite existsb_exists. split.
  - intros (k & Hk & He). apply String.eqb_eq in He. subst.
    apply list_elem_of_In, Hk.
  - intros Hin. exists tag. split; [apply list_elem_of_In, Hin|].
    apply String.eqb_refl.
Qed.

Lemma landmark_names_NoDup : NoDup landmark_names.
Proof.
  unfold landmark_names.
  repeat (constructor;
          [rewrite ?elem_of_cons, elem_of_nil; intuition discriminate|]).
  constructor.
Qed.

End Landmarks.

Section LandmarkClaims.
Context {num flt : Type}.
Implicit Types (w : @World num flt) (cfg : @Config flt)
  (objs : list (@Keypoint num)) (d : @Data flt).

Lemma Forall2_map_same {A B C : Type} (P : B -> C -> Prop)
    (f : A -> B) (h : A -> C) (l : list A) :
  (forall a, In a l -> P (f a) (h a)) -> Forall2 P (map f l) (map h l).
Proof.
  induction l as [|a l IH]; simpl; intros H; constructor.
  - apply H. left. reflexivity.
  - apply IH. intros a' Ha'. apply H. right. exact Ha'.
Qed.

(** What the landmark step returns for a file whose tags are all
    recognized and whose coordinates all have three components. *)
Lemma keypoint_tensors_grouped w p objs :
  kpt_file w p = Some objs ->
  Forall (fun o => recognized (kp_class o) = true) objs ->
  Forall (fun o => length (kp_coord o) = 3) objs ->
  keypoint_tensors w p =
    Ok (map (fun tag => (tag, Mat3 (rows_of w (entries_of tag objs))))
            landmark_names).
Proof.
  intros Hfile Hrec Hlen. unfold keypoint_tensors. rewrite Hfile.
  assert (Hfill := fill_keypoints_present objs
                     (map (fun key : string => (key, @nil num)) landmark_names)).
  rewrite map_map in Hfill. simpl map in Hfill.
  rewrite (bind_Ok_eq _ _ _ (Hfill landmark_names_NoDup
             (Forall_impl _ _ _ Hrec
                (fun o Ho => proj1 (recognized_elem_of _) Ho)))).
  apply Forall2_map_result.
  apply (Forall2_map_same _
           (fun tag => (tag, concat (map kp_coord (entries_of tag objs))))
           (fun tag => (tag, Mat3 (rows_of w (entries_of tag objs))))
           landmark_names).
  intros tag _. simpl.
  destruct (reshape3_rows w (entries_of tag objs)) as (Hr & _).
  { apply Forall_entries_of, Hlen. }
  rewrite Hr. reflexivity.
Qed.

Lemma keypoint_tensors_unknown w p objs :
  kpt_file w p = Some objs ->
  Exists (fun o => recognized (kp_class o) = false) objs ->
  exists tag,
    recognized tag = false /\ (tag ∈ map kp_class objs) /\
    keypoint_tensors w p = Err (KeyError tag).
Proof.
  intros Hfile Hex. unfold keypoint_tensors. rewrite Hfile.
  destruct (fill_keypoints_unknown objs
              (map (fun key : string => (key, @nil num)) landmark_names))
    as (tag & Ht & Hin & Hfill).
  - exact landmark_names_NoDup.
  - change (Exists (fun o : Keypoint => kp_class o ∉ landmark_names) objs).
    eapply Exists_impl; [exact Hex|]. intros o Ho Hin.
    apply recognized_elem_of in Hin. congruence.
  - exists tag. change (tag ∉ landmark_names) in Ht.
    split; [|split; [exact Hin | rewrite Hfill; reflexivity]].
    destruct (recognized tag) eqn:Hr; [|reflexivity].
    exfalso. apply Ht, recognized_elem_of, Hr.
Qed.

(** An exception of the landmark step leaves [build_record] without a
    record, and is the exception raised when the steps before it return. *)
Lemma build_record_landmark_error w cfg path g e :
  keypoint_tensors w (py_replace ".obj" "__kpt.json" path) = Err e ->
  (exists e', build_record w cfg path g = Err e') /\
  (forall loaded mesh idx g' ps ns seg,
     load_mesh w path = Some loaded ->
     first_geometry loaded = Ok mesh ->
     sample_indices w cfg mesh g = Ok (idx, g') ->
     length idx = n_sample cfg ->
     gather (vertices mesh) idx = Ok ps ->
     gather (vertex_normals mesh) idx = Ok ns ->
     segmentation w (py_replace ".obj" ".json" path) idx = Ok seg ->
     build_record w cfg path g = Err e).
Proof.
  intros Hk. split.
  - unfold build_record.
    destruct (load_mesh w path) as [loaded|]; simpl; [|eauto].
    destruct (first_geometry loaded) as [mesh|]; simpl; [|eauto].
    destruct (sample_indices w cfg mesh g) as [[idx g']|]; simpl; [|eauto].
    destruct (negb (length idx =? n_sample cfg)%nat); [eauto|].
    destruct (gather (vertices mesh) idx); simpl; [|eauto].
    destruct (gather (vertex_normals mesh) idx); simpl; [|eauto].
    destruct (segmentation w (py_replace ".obj" ".json" path) idx)
      as [[? ?]|]; simpl; [|eauto].
    rewrite Hk. simpl. eauto.
  - intros loaded mesh idx g' ps ns [yt it] Hload Hmesh Hs Hlen Hps Hns Hseg.
    unfold build_record. rewrite Hload. simpl. rewrite Hmesh. simpl.
    rewrite Hs. simpl. apply Nat.eqb_eq in Hlen. rewrite Hlen. simpl.
    rewrite Hps. simpl. rewrite Hns. simpl. rewrite Hseg. simpl.
    rewrite Hk. reflexivity.
Qed.

(** C7, in the form that holds of the code. For a keypoint file whose
    entries all carry recognized class tags and coordinates of three
    components, the landmark step gives, for each of the six tags, the
    tensor whose rows are the coordinates of the entries with that tag, one
    row per entry in file order, of shape [(k, 3)] with [k] the number of
    those entries; and these six tensors are the landmark groups of the
    record [process_file] builds (the returned record, up to the
    [pre_transform] when one is configured). *)
Theorem C7_landmark_groups w cfg path g objs :
  kpt_file w (py_replace ".obj" "__kpt.json" path) = Some objs ->
  Forall (fun o => recognized (kp_class o) = true) objs ->
  Forall (fun o => length (kp_coord o) = 3) objs ->
  keypoint_tensors w (py_replace ".obj" "__kpt.json" path) =
    Ok (map (fun tag => (tag, Mat3 (rows_of w (entries_of tag objs))))
            landmark_names) /\
  (forall tag,
     Forall2 (fun o row => as_row w (kp_coord o) = Some row)
             (entries_of tag objs) (rows_of w (entries_of tag objs)) /\
     tensor_shape (Mat3 (rows_of w (entries_of tag objs)))
       = [length (entries_of tag objs); 3]) /\
  (forall r g', process_file w cfg path g = Ok (Some r, g') ->
     exists d,
       r = apply_pre_transform cfg d /\
       (pre_transform cfg = None -> r = d) /\
       mesial d = Mat3 (rows_of w (entries_of "Mesial" objs)) /\
       distal d = Mat3 (rows_of w (entries_of "Distal" objs)) /\
       cusp d = Mat3 (rows_of w (entries_of "Cusp" objs)) /\
       inner_point d = Mat3 (rows_of w (entries_of "InnerPoint" objs)) /\
       outer_point d = Mat3 (rows_of w (entries_of "OuterPoint" objs)) /\
       facial_point d = Mat3 (rows_of w (entries_of "FacialPoint" objs))).
Proof.
  intros Hfile Hrec Hlen.
  pose proof (keypoint_tensors_grouped _ _ _ Hfile Hrec Hlen) as Hk.
  split; [exact Hk|]. split.
  - intros tag.
    destruct (reshape3_rows w (entries_of tag objs)) as (_ & Hrows).
    { apply Forall_entries_of, Hlen. }
    split; [exact Hrows|]. simpl.
    rewrite (Forall2_length _ _ _ Hrows). reflexivity.
  - intros r g' H.
    apply process_file_Some_inv in H as (d & idx & Hb & _ & Hr).
    apply build_record_inv in Hb
      as (loaded & mesh & ps & ns & kts & _ & _ & _ & _ & _ & _ & _ & _
          & _ & Hk' & _ & H1 & H2 & H3 & H4 & H5 & H6).
    rewrite Hk in Hk'. injection Hk' as <-.
    simpl in H1, H2, H3, H4, H5, H6.
    exists d.
    split; [exact Hr|].
    split; [intros Hnone; rewrite Hr; apply apply_pre_transform_None, Hnone|].
    repeat split; congruence.
Qed.

(** C10.  When the keypoint file holds an entry whose class tag is none
    of the six landmark names, the landmark step raises [KeyError] for
    the first such tag, [process_file] returns no record whatever the
    rest of the file holds, and the exception it raises is that
    [KeyError] whenever the steps before the landmark step return. *)
Theorem C10_unknown_tag_rejects_file w cfg path g objs :
  kpt_file w (py_replace ".obj" "__kpt.json" path) = Some objs ->
  Exists (fun o => recognized (kp_class o) = false) objs ->
  exists tag,
    recognized tag = false /\
    (tag ∈ map kp_class objs) /\
    keypoint_tensors w (py_replace ".obj" "__kpt.json" path)
      = Err (KeyError tag) /\
    (exists e, process_file w cfg path g = Err e) /\
    (forall loaded mesh idx g' ps ns seg,
       load_mesh w path = Some loaded ->
       first_geometry loaded = Ok mesh ->
       sample_indices w cfg mesh g = Ok (idx, g') ->
       length idx = n_sample cfg ->
       gather (vertices mesh) idx = Ok ps ->
       gather (vertex_normals mesh) idx = Ok ns ->
       segmentation w (py_replace ".obj" ".json" path) idx = Ok seg ->
       process_file w cfg path g = Err (KeyError tag)).
Proof.
  intros Hfile Hex.
  destruct (keypoint_tensors_unknown _ _ _ Hfile Hex) as (tag & Ht & Hin & Hk).
  destruct (build_record_landmark_error w cfg path g _ Hk) as ((e' & He') & Hpre).
  exists tag. split; [exact Ht|]. split; [exact Hin|]. split; [exact Hk|]. split.
  - exists e'. apply process_file_build_Err, He'.
  - intros loaded mesh idx g' ps ns seg Hload Hmesh Hs Hlen Hps Hns Hseg.
    apply process_file_build_Err. eapply Hpre; eassumption.
Qed.

End LandmarkClaims.

Lemma C7_landmark_groups_witness :
  kpt_file demo_world (py_replace ".obj" "__kpt.json" upper_obj) = Some demo_kpts /\
  process_file demo_world (demo_cfg 5 None None) upper_obj 0
    = Ok (Some upper_record_5, 5) /\
  cusp upper_record_5 = Mat3 (rows_of demo_world (entries_of "Cusp" demo_kpts)) /\
  mesial upper_record_5 = Mat3 (rows_of demo_world (entries_of "Mesial" demo_kpts)) /\
  tensor_len (cusp upper_record_5) = 2 /\
  tensor_len (mesial upper_record_5) = 1 /\
  tensor_len (distal upper_record_5) = 0.
Proof.
  assert (Hf : kpt_file demo_world (py_replace ".obj" "__kpt.json" upper_obj)
               = Some demo_kpts) by reflexivity.
  assert (Hrec : Forall (fun o : @Keypoint Z => recognized (kp_class o) = true)
                        demo_kpts)
    by (repeat constructor).
  assert (Hlen : Forall (fun o : @Keypoint Z => length (kp_coord o) = 3) demo_kpts)
    by (repeat constructor).
  assert (H : process_file demo_world (demo_cfg 5 None None) upper_obj 0
              = Ok (Some upper_record_5, 5)) by reflexivity.
  split; [exact Hf|]. split; [exact H|].
  destruct (C7_landmark_groups demo_world (demo_cfg 5 None None) upper_obj 0
              demo_kpts Hf Hrec Hlen) as (_ & _ & Hret).
  destruct (Hret upper_record_5 5 H)
    as (d & _ & Hd & Hm & _ & Hc & _).
  rewrite (Hd eq_refl).
  split; [exact Hc|]. split; [exact Hm|].
  rewrite <- (Hd eq_refl). repeat split.
Defined.

(** Two ways the groups of the returned record miss the entries of the
    file: a [pre_transform] that replaces them, and a coordinate of six
    components, which [reshape(-1, 3)] cuts into two rows. *)
Lemma C7_counterexample :
  (exists r,
     kpt_file demo_world (py_replace ".obj" "__kpt.json" upper_obj)
       = Some demo_kpts /\
     process_file demo_world (demo_cfg 5 (Some add_placeholders) None) upper_obj 0
       = Ok (Some r, 5) /\
     length (entries_of "Cusp" demo_kpts) = 2 /\ tensor_len (cusp r) = 0 /\
     length (entries_of "Mesial" demo_kpts) = 1 /\
     mesial r = Mat3 [(0, 0, 0)%Z]) /\
  (exists r,
     kpt_file (demo_world_with first_n wide_kpts)
              (py_replace ".obj" "__kpt.json" upper_obj) = Some wide_kpts /\
     forallb (fun o : @Keypoint Z => recognized (kp_class o)) wide_kpts = true /\
     process_file (demo_world_with first_n wide_kpts) (demo_cfg 5 None None)
       upper_obj 0 = Ok (Some r, 5) /\
     length (entries_of "Cusp" wide_kpts) = 1 /\
     cusp r = Mat3 [(1, 2, 3); (4, 5, 6)]%Z).
Proof.
  split.
  - eexists. split; [reflexivity|]. split; [reflexivity|]. repeat split.
  - eexists. split; [reflexivity|]. split; [reflexivity|].
    split; [reflexivity|]. repeat split.
Qed.

Lemma C10_unknown_tag_rejects_file_witness :
  kpt_file (demo_world_with first_n odd_kpts)
           (py_replace ".obj" "__kpt.json" upper_obj) = Some odd_kpts /\
  process_file (demo_world_with first_n odd_kpts) (demo_cfg 2 None None)
    upper_obj 0 = Err (KeyError "Apex") /\
  exists tag,
    recognized tag = false /\
    keypoint_tensors (demo_world_with first_n odd_kpts)
                     (py_replace ".obj" "__kpt.json" upper_obj)
      = Err (KeyError tag).
Proof.
  assert (Hf : kpt_file (demo_world_with first_n odd_kpts)
                        (py_replace ".obj" "__kpt.json" upper_obj) = Some odd_kpts)
    by reflexivity.
  assert (Hex : Exists (fun o : @Keypoint Z => recognized (kp_class o) = false)
                       odd_kpts)
    by (right; left; reflexivity).
  split; [exact Hf|]. split; [reflexivity|].
  destruct (C10_unknown_tag_rejects_file (demo_world_with first_n odd_kpts)
              (demo_cfg 2 None None) upper_obj 0 odd_kpts Hf Hex)
    as (tag & Ht & _ & Hk & _).
  exists tag. split; [exact Ht | exact Hk].
Defined.

(** ** The driver: [process], [len] (C3, C8, C9) *)

Section Driver.
Context {num flt : Type}.
Implicit Types (w : @World num flt) (cfg : @Config flt) (st : @Store flt).

Lemma process_files_app w cfg files1 files2 st :
  process_files w cfg (files1 ++ files2) st =
    (st' <- process_files w cfg files1 st ;; process_files w cfg files2 st').
Proof.
  revert st. induction files1 as [|file files1 IH]; intros st; simpl.
  - reflexivity.
  - destruct (process_one w cfg st file) as [st1|e]; simpl; [apply IH | reflexivity].
Qed.

Lemma process_one_skip w cfg st file :
  length (glob w (raw_dir cfg +:+ "/**/*/*" +:+ hd "" (py_split "." file)
                  +:+ ".obj")) <> 1 ->
  process_one w cfg st file = Ok st.
Proof.
  unfold process_one. intros Hlen.
  destruct (glob w _) as [|p [|q l]]; simpl in *; try reflexivity; lia.
Qed.

(** C8.  An identifier whose path lookup gives no match, or more than
    one, is skipped: its iteration returns the store as it found it (no
    cache entry, no call of [process_file], no draw from the generator)
    and raises nothing, so that a pass over a manifest that names the
    identifier is the pass over the manifest without it. *)
Theorem C8_unresolved_identifier_skipped w cfg file :
  length (glob w (raw_dir cfg +:+ "/**/*/*" +:+ hd "" (py_split "." file)
                  +:+ ".obj")) <> 1 ->
  (forall st, process_one w cfg st file = Ok st) /\
  (forall before after st,
     process_files w cfg (before ++ file :: after) st =
     process_files w cfg (before ++ after) st).
Proof.
  intros Hlen. split.
  - intros st. apply process_one_skip, Hlen.
  - intros before after st. rewrite !process_files_app.
    destruct (process_files w cfg before st) as [st1|e]; simpl; [|reflexivity].
    rewrite (process_one_skip _ _ _ _ Hlen). reflexivity.
Qed.

(** C3.  When the filter rejects the record built for the one file an
    identifier resolves to, [process_file] returns [None], and the
    iteration of [process] for that identifier saves this [None] under
    the identifier's cache key: the cache gains an entry. *)
Theorem C3_rejected_record_is_saved w cfg st file p d idx g' f :
  glob w (raw_dir cfg +:+ "/**/*/*" +:+ hd "" (py_split "." file) +:+ ".obj")
    = [p] ->
  build_record w cfg p (rng st) = Ok (d, idx, g') ->
  pre_filter cfg = Some f ->
  f d = false ->
  process_file w cfg p (rng st) = Ok (None, g') /\
  process_one w cfg st file =
    Ok {| cache := <[osp_join (processed_dir cfg) file := None]> (cache st);
          rng := g';
          calls := calls st ++ [p] |} /\
  (<[osp_join (processed_dir cfg) file := None]> (cache st))
    !! osp_join (processed_dir cfg) file = Some None.
Proof.
  intros Hglob Hb Hf Hrej.
  assert (Hpf : process_file w cfg p (rng st) = Ok (None, g')).
  { rewrite (process_file_of_build _ _ _ _ _ _ _ Hb).
    unfold rejected. rewrite Hf, Hrej. reflexivity. }
  split; [exact Hpf|]. split.
  - unfold process_one. rewrite Hglob, Hpf. reflexivity.
  - apply lookup_insert_eq.
Qed.

Lemma length_concat_sum {A : Type} (ls : list (list A)) :
  length (concat ls) = sum_list (map length ls).
Proof.
  induction ls as [|l ls IH]; simpl; [reflexivity|].
  rewrite length_app, IH. reflexivity.
Qed.

Lemma process_one_grows w cfg st file st' :
  process_one w cfg st file = Ok st' ->
  size (cache st') <= S (size (cache st)) /\
  length (calls st') <= S (length (calls st)).
Proof.
  unfold process_one.
  destruct (glob w _) as [|p [|q l]]; simpl; intros H.
  - injection H as <-. lia.
  - apply bind_Ok_inv in H as ([data g1] & _ & H). injection H as <-. simpl.
    rewrite map_size_insert, length_app. simpl.
    destruct (cache st !! _); simpl; lia.
  - injection H as <-. lia.
Qed.

Lemma process_files_grows w cfg files : forall st st',
  process_files w cfg files st = Ok st' ->
  size (cache st') <= size (cache st) + length files /\
  length (calls st') <= length (calls st) + length files.
Proof.
  induction files as [|file files IH]; simpl; intros st st' H.
  - injection H as <-. lia.
  - apply bind_Ok_inv in H as (st1 & H1 & H).
    apply process_one_grows in H1. apply IH in H. lia.
Qed.

(** C9.  The file names of the dataset are the lines of the manifest
    split files, file after file in the order the lookup lists them and
    line after line, repeats kept, each with [".pt"] appended; the
    length of the dataset is the number of these lines, that is the sum
    of the line counts of the files.  The cache plays no part in it: a
    pass that returns has saved at most that many entries. *)
Theorem C9_len_counts_manifest_lines w cfg contents :
  Forall2 (fun p c => read_text w p = Some c)
          (glob w (osp_join
                     (osp_join (raw_dir cfg) (split cfg +:+ "_train_test_split"))
                     (mode cfg +:+ "*.txt")))
          contents ->
  processed_file_names w cfg =
    Ok (map (fun file_name => file_name +:+ ".pt")
            (concat (map splitlines contents))) /\
  len w cfg = Ok (length (concat (map splitlines contents))) /\
  len w cfg = Ok (sum_list (map (fun c => length (splitlines c)) contents)) /\
  (forall st st', process w cfg st = Ok st' ->
     size (cache st') <=
       size (cache st) + length (concat (map splitlines contents))).
Proof.
  intros Hread.
  assert (Hnames : processed_file_names w cfg =
            Ok (map (fun file_name => file_name +:+ ".pt")
                    (concat (map splitlines contents)))).
  { unfold processed_file_names. cbv zeta.
    erewrite bind_Ok_eq; [reflexivity|].
    apply Forall2_map_result.
    apply Forall2_fmap_r, (Forall2_impl _ _ _ _ Hread).
    intros p c Hp. rewrite Hp. reflexivity. }
  split; [exact Hnames|].
  assert (Hlen : len w cfg = Ok (length (concat (map splitlines contents)))).
  { unfold len. rewrite Hnames. simpl. rewrite length_map. reflexivity. }
  split; [exact Hlen|]. split.
  - rewrite Hlen, length_concat_sum, map_map. reflexivity.
  - intros st st' H. unfold process in H. rewrite Hnames in H. simpl in H.
    apply process_files_grows in H. rewrite length_map in H. lia.
Qed.

End Driver.

Lemma C3_rejected_record_is_saved_witness :
  process_file demo_world (demo_cfg 2 None (Some reject_all)) upper_obj 0
    = Ok (None, 0) /\
  exists st',
    process_one demo_world (demo_cfg 2 None (Some reject_all)) empty_store
      "p7_upper.pt" = Ok st' /\
    cache st' !! "data/processed_Teeth3DS_training/p7_upper.pt" = Some None.
Proof.
  destruct (C3_rejected_record_is_saved demo_world
              (demo_cfg 2 None (Some reject_all)) empty_store "p7_upper.pt"
              upper_obj upper_record_2 [0; 1] 0 reject_all
              eq_refl eq_refl eq_refl eq_refl) as (Hpf & Hone & Hlook).
  split; [exact Hpf|].
  eexists. split; [exact Hone | exact Hlook].
Defined.

(** After a whole pass with the rejecting filter, index 0 of the dataset
    loads as [None]. *)
Example rejected_record_is_served :
  (st' <- process demo_world (demo_cfg 2 None (Some reject_all)) empty_store ;;
   get demo_world (demo_cfg 2 None (Some reject_all)) st' 0) = Ok None.
Proof. vm_compute. reflexivity. Qed.

Lemma C8_unresolved_identifier_skipped_witness :
  glob demo_world "data/raw/**/*/*gone_upper.obj" = [] /\
  process_one demo_world (demo_cfg 2 None None) empty_store "gone_upper.pt"
    = Ok empty_store /\
  length (glob demo_world "data/raw/**/*/*p9_lower.obj") = 2 /\
  process_one demo_world (demo_cfg 2 None None) empty_store "p9_lower.pt"
    = Ok empty_store /\
  process_files demo_world (demo_cfg 2 None None)
    (["p7_upper.pt"] ++ "gone_upper.pt" :: ["p8_lower.pt"]) empty_store
  = process_files demo_world (demo_cfg 2 None None)
      (["p7_upper.pt"] ++ ["p8_lower.pt"]) empty_store.
Proof.
  assert (H0 : length (glob demo_world
                 (raw_dir (demo_cfg 2 None None) +:+ "/**/*/*" +:+
                  hd "" (py_split "." "gone_upper.pt") +:+ ".obj")) <> 1)
    by (vm_compute; lia).
  assert (H2 : length (glob demo_world
                 (raw_dir (demo_cfg 2 None None) +:+ "/**/*/*" +:+
                  hd "" (py_split "." "p9_lower.pt") +:+ ".obj")) <> 1)
    by (vm_compute; lia).
  destruct (C8_unresolved_identifier_skipped demo_world (demo_cfg 2 None None)
              "gone_upper.pt" H0) as (Hone0 & Hall0).
  destruct (C8_unresolved_identifier_skipped demo_world (demo_cfg 2 None None)
              "p9_lower.pt" H2) as (Hone2 & _).
  split; [reflexivity|]. split; [apply Hone0|].
  split; [reflexivity|]. split; [apply Hone2|].
  apply Hall0.
Defined.

Lemma C9_len_counts_manifest_lines_witness :
  processed_file_names demo_world (demo_cfg 2 None None)
    = Ok ["p7_upper.pt"; "gone_upper.pt"; "p8_lower.pt"; "p9_lower.pt";
          "p8_lower.pt"] /\
  len demo_world (demo_cfg 2 None None) = Ok 5 /\
  exists st',
    process demo_world (demo_cfg 2 None None) empty_store = Ok st' /\
    size (cache st') = 2 /\
    size (cache st') <= size (cache empty_store) + 5.
Proof.
  assert (Hread :
    Forall2 (fun p c => read_text demo_world p = Some c)
      (glob demo_world
         (osp_join
            (osp_join (raw_dir (demo_cfg 2 None None))
                      (split (demo_cfg 2 None None) +:+ "_train_test_split"))
            (mode (demo_cfg 2 None None) +:+ "*.txt")))
      ["p7_upper
gone_upper
"; "p8_lower
p9_lower
p8_lower"]).
  { repeat constructor. }
  destruct (C9_len_counts_manifest_lines demo_world (demo_cfg 2 None None) _ Hread)
    as (Hnames & Hlen & _ & Hsize).
  split; [exact Hnames|]. split; [exact Hlen|].
  destruct (process demo_world (demo_cfg 2 None None) empty_store) as [st'|e] eqn:Hp.
  - exists st'. split; [reflexivity|]. split.
    + vm_compute in Hp. injection Hp as <-. vm_compute. reflexivity.
    + apply (Hsize empty_store st' Hp).
  - vm_compute in Hp. discriminate Hp.
Defined.

(** * Further properties of the code *)

(** ** Fancy indexing *)

Section GatherErrors.
Context {A : Type}.
Implicit Types (arr : list A) (idx : list nat).

(** The only exception of [arr[idx]] is [IndexError], raised when some
    index is not below the length of the array. *)
Lemma gather_Err arr idx e :
  gather arr idx = Err e ->
  e = IndexError /\ Exists (fun j => length arr <= j) idx.
Proof.
  unfold gather. induction idx as [|j idx IH]; simpl; intros H; [discriminate|].
  destruct (arr !! j) as [a|] eqn:Hj; simpl in H.
  - destruct (map_result _ idx) as [l|e'] eqn:Hrest; simpl in H; [discriminate|].
    injection H as <-. destruct (IH eq_refl) as (-> & Hex).
    split; [reflexivity | right; exact Hex].
  - injection H as <-. split; [reflexivity|].
    left. apply lookup_ge_None, Hj.
Qed.

Lemma gather_out_of_range arr idx :
  Exists (fun j => length arr <= j) idx -> gather arr idx = Err IndexError.
Proof.
  intros Hex. destruct (gather arr idx) as [l|e] eqn:H.
  - exfalso. apply gather_in_range in H.
    apply Exists_exists in Hex as (j & Hj & Hle).
    rewrite Forall_forall in H. specialize (H j Hj). lia.
  - apply gather_Err in H as (-> & _). reflexivity.
Qed.

End GatherErrors.

(** ** The two sampling branches *)

Section SamplingBranches.
Context {num flt : Type}.
Implicit Types (w : @World num flt) (cfg : @Config flt) (mesh : @Mesh num).

Lemma random_choice_in_range w V n g :
  0 < V ->
  exists idx,
    random_choice w V n g = Ok (idx, g + n) /\
    length idx = n /\ Forall (fun j => j < V) idx.
Proof.
  intros HV. unfold random_choice.
  destruct (V =? 0)%nat eqn:E; [apply Nat.eqb_eq in E; lia|].
  eexists. split; [reflexivity|]. split.
  - rewrite length_map, length_seq. reflexivity.
  - apply Forall_forall. intros j Hj.
    apply list_elem_of_In, in_map_iff in Hj as (i & <- & _).
    apply Nat.mod_upper_bound. lia.
Qed.

(** X1.  For a mesh with some vertices but fewer than [n_sample], the
    sampling step returns exactly [n_sample] indices, all of them below
    the number of vertices, and advances the generator by [n_sample]
    draws; the size check passes and gathering the positions cannot
    fail. *)
Theorem X1_replacement_branch_in_range w cfg mesh g :
  0 < length (vertices mesh) ->
  length (vertices mesh) < n_sample cfg ->
  exists idx ps,
    sample_indices w cfg mesh g = Ok (idx, g + n_sample cfg) /\
    length idx = n_sample cfg /\
    Forall (fun j => j < length (vertices mesh)) idx /\
    gather (vertices mesh) idx = Ok ps /\
    length ps = n_sample cfg.
Proof.
  intros Hpos Hlt.
  destruct (random_choice_in_range w (length (vertices mesh)) (n_sample cfg) g Hpos)
    as (idx & Hrc & Hlen & Hrange).
  destruct (gather_total (vertices mesh) idx Hrange) as (ps & Hps).
  exists idx, ps. split.
  - unfold sample_indices. apply Nat.ltb_lt in Hlt. rewrite Hlt. exact Hrc.
  - split; [exact Hlen|]. split; [exact Hrange|]. split; [exact Hps|].
    rewrite (gather_length _ _ _ Hps). exact Hlen.
Qed.

(** X2.  A mesh without vertices cannot be processed when [n_sample] is
    positive: [np.random.choice] has nothing to draw from and
    [process_file] raises [ValueError]. *)
Theorem X2_empty_mesh_raises_ValueError w cfg path g loaded mesh :
  load_mesh w path = Some loaded ->
  first_geometry loaded = Ok mesh ->
  vertices mesh = [] ->
  0 < n_sample cfg ->
  process_file w cfg path g = Err ValueError.
Proof.
  intros Hload Hmesh Hv Hn. apply process_file_build_Err.
  unfold build_record. rewrite Hload. simpl. rewrite Hmesh. simpl.
  unfold sample_indices, random_choice. rewrite Hv. simpl.
  destruct (n_sample cfg) as [|n]; [lia|]. reflexivity.
Qed.


(** X4.  An annotation file whose [labels] or [instances] array is too
    short for one of the sampled indices makes [process_file] raise
    [IndexError], once the mesh has been sampled and gathered. *)
Theorem X4_short_annotation_raises_IndexError
    w cfg path g loaded mesh idx g' ps ns ann :
  load_mesh w path = Some loaded ->
  first_geometry loaded = Ok mesh ->
  sample_indices w cfg mesh g = Ok (idx, g') ->
  length idx = n_sample cfg ->
  gather (vertices mesh) idx = Ok ps ->
  gather (vertex_normals mesh) idx = Ok ns ->
  seg_file w (py_replace ".obj" ".json" path) = Some ann ->
  Exists (fun j => length (labels ann) <= j \/ length (instances_of ann) <= j) idx ->
  process_file w cfg path g = Err IndexError.
Proof.
  intros Hload Hmesh Hs Hlen Hps Hns Hann Hex.
  apply process_file_build_Err.
  unfold build_record. rewrite Hload. simpl. rewrite Hmesh. simpl.
  rewrite Hs. simpl. apply Nat.eqb_eq in Hlen. rewrite Hlen. simpl.
  rewrite Hps. simpl. rewrite Hns. simpl.
  unfold segmentation. rewrite Hann.
  destruct (gather (labels ann) idx) as [ls|e] eqn:Hls; simpl.
  - assert (Hins : gather (instances_of ann) idx = Err IndexError).
    { apply gather_out_of_range.
      apply gather_in_range in Hls. rewrite Forall_forall in Hls.
      apply Exists_exists in Hex as (j & Hj & Hor).
      apply Exists_exists. exists j. split; [exact Hj|].
      destruct Hor as [Hl|Hi]; [specialize (Hls j Hj); lia | exact Hi]. }
    rewrite Hins. reflexivity.
  - apply gather_Err in Hls as (-> & _). reflexivity.
Qed.

End SamplingBranches.

(** ** The jaw token *)

Lemma prefix_single (c : ascii) (s : string) :
  String.prefix (String c "") s =
    match s with
    | String b _ => Ascii.eqb c b
    | EmptyString => false
    end.
Proof.
  destruct s as [|b s]; simpl; [reflexivity|].
  destruct (ascii_dec c b) as [->|Hne].
  - rewrite Ascii.eqb_refl. destruct s; reflexivity.
  - symmetry. apply Ascii.eqb_neq, Hne.
Qed.

(** Splitting on one character gives one piece more than the character
    has occurrences. *)
Lemma split_go_single_length (c : ascii) (s : string) : forall cur,
  length (split_go (String c "") s 0 cur) = S (count_char c s).
Proof.
  induction s as [|b s IH]; intros cur; [reflexivity|].
  cbn [split_go count_char]. rewrite prefix_single.
  destruct (Ascii.eqb c b); cbn [length String.length Nat.sub]; rewrite IH; lia.
Qed.

Lemma py_split_single_length (c : ascii) (s : string) :
  length (py_split (String c "") s) = S (count_char c s).
Proof. apply split_go_single_length. Qed.

Section Jaw.
Context {num flt : Type}.
Implicit Types (w : @World num flt) (cfg : @Config flt).

Lemma build_record_jaw_error w cfg path g e :
  jaw_of path = Err e -> exists e', build_record w cfg path g = Err e'.
Proof.
  intros Hj. unfold build_record.
  destruct (load_mesh w path) as [loaded|]; simpl; [|eauto].
  destruct (first_geometry loaded) as [mesh|]; simpl; [|eauto].
  destruct (sample_indices w cfg mesh g) as [[idx g']|]; simpl; [|eauto].
  destruct (negb (length idx =? n_sample cfg)%nat); [eauto|].
  destruct (gather (vertices mesh) idx); simpl; [|eauto].
  destruct (gather (vertex_normals mesh) idx); simpl; [|eauto].
  destruct (segmentation w (py_replace ".obj" ".json" path) idx)
    as [[? ?]|]; simpl; [|eauto].
  destruct (keypoint_tensors w (py_replace ".obj" "__kpt.json" path));
    simpl; [|eauto].
  rewrite Hj. simpl. eauto.
Qed.

(** X5.  The jaw token exists exactly when the part of the path before
    its first [".obj"] contains an underscore: without one the jaw
    extraction raises [IndexError] and [process_file] returns no record,
    whatever the mesh and its annotations hold; with one the extraction
    returns. *)
Theorem X5_jaw_needs_an_underscore w cfg path g :
  (count_char "_" (hd "" (py_split ".obj" path)) = 0 ->
     jaw_of path = Err IndexError /\
     exists e, process_file w cfg path g = Err e) /\
  (0 < count_char "_" (hd "" (py_split ".obj" path)) ->
     exists j, jaw_of path = Ok j).
Proof.
  pose proof (py_split_single_length "_" (hd "" (py_split ".obj" path))) as Hlen.
  unfold jaw_of. split; intros Hc.
  - assert (Hj : from_opt IndexError
                   (py_split "_" (hd "" (py_split ".obj" path)) !! 1)
                 = Err IndexError).
    { rewrite (proj2 (lookup_ge_None _ _)); [reflexivity|]. lia. }
    split; [exact Hj|].
    destruct (build_record_jaw_error w cfg path g _ Hj) as (e' & He').
    exists e'. apply process_file_build_Err, He'.
  - destruct (lookup_lt_is_Some_2
                (py_split "_" (hd "" (py_split ".obj" path))) 1) as (j & Hj);
      [lia|].
    exists j. rewrite Hj. reflexivity.
Qed.

End Jaw.

(** ** Reshaping *)

Section Reshape.
Context {flt : Type}.
Implicit Types (xs : list flt) (rows : list (vec3 flt)).

(** [reshape(-1, 3)] keeps the elements in order, three to a row. *)
Lemma reshape3_flatten rows : forall xs,
  reshape3 xs = Ok rows ->
  flatten_rows rows = xs /\ length xs = 3 * length rows.
Proof.
  induction rows as [|row rows IH]; intros xs H.
  - destruct xs as [|a [|b [|c xs]]]; simpl in H; try discriminate.
    + split; reflexivity.
    + destruct (reshape3 xs); discriminate.
  - destruct xs as [|a [|b [|c xs]]]; simpl in H; try discriminate.
    destruct (reshape3 xs) as [rows'|] eqn:Hr; simpl in H; [|discriminate].
    injection H as <- <-. destruct (IH xs Hr) as (Hf & Hl).
    split; simpl; [rewrite Hf; reflexivity | rewrite Hl; lia].
Qed.

Lemma reshape3_of_length n : forall xs,
  length xs = 3 * n -> exists rows, reshape3 xs = Ok rows.
Proof.
  induction n as [|n IH]; intros xs Hl.
  - destruct xs; [exists []; reflexivity | simpl in Hl; lia].
  - destruct xs as [|a [|b [|c xs]]]; simpl in Hl; try lia.
    destruct (IH xs) as (rows & Hr); [lia|].
    exists ((a, b, c) :: rows). simpl. rewrite Hr. reflexivity.
Qed.

(** Its only exception is [RuntimeError], on a size that is no multiple
    of three. *)
Lemma reshape3_Err xs e :
  reshape3 xs = Err e -> e = RuntimeError /\ length xs `mod` 3 <> 0.
Proof.
  intros H. split.
  - assert (Hn : forall n xs e, length xs <= n -> reshape3 xs = Err e ->
                                e = RuntimeError).
    { clear. induction n as [|n IH]; intros xs e Hl H'.
      - destruct xs; [discriminate | simpl in Hl; lia].
      - destruct xs as [|a [|b [|c xs]]]; simpl in H';
          try discriminate; try (injection H' as <-; reflexivity).
        destruct (reshape3 xs) as [rows|e'] eqn:Hr; simpl in H'; [discriminate|].
        injection H' as <-. apply (IH xs); [simpl in Hl; lia | exact Hr]. }
    apply (Hn (length xs) xs e); [lia | exact H].
  - intros Hmod. apply Nat.Div0.div_exact in Hmod.
    destruct (reshape3_of_length _ _ Hmod) as (rows & Hr). congruence.
Qed.

End Reshape.

(** ** Landmarks in general *)

Lemma map_result_Err {A B : Type} (f : A -> result B) (l : list A) (e : error) :
  map_result f l = Err e -> exists a, In a l /\ f a = Err e.
Proof.
  induction l as [|a l IH]; simpl; intros H; [discriminate|].
  destruct (f a) as [b|e'] eqn:Ha; simpl in H.
  - destruct (map_result f l) as [bs|e''] eqn:Hl; simpl in H; [discriminate|].
    injection H as <-. destruct (IH eq_refl) as (a' & Hin & Ha').
    exists a'. split; [right; exact Hin | exact Ha'].
  - injection H as <-. exists a. split; [left; reflexivity | exact Ha].
Qed.

Section LandmarksInGeneral.
Context {num flt : Type}.
Implicit Types (w : @World num flt) (cfg : @Config flt)
  (objs : list (@Keypoint num)).

(** The comprehension of lines 204 to 208 over a dictionary given by its
    keys: when it returns, the tensors come under the same keys in the
    same order, and the tensor of a key is the reshaped list of that
    key. *)
Lemma tensors_of_dict w (content : string -> list num) (tags : list string) :
  forall kts,
  NoDup tags ->
  map_result
    (fun kv : string * list num =>
       rows <- reshape3 (map (to_float w) (snd kv)) ;; Ok (fst kv, Mat3 rows))
    (map (fun tag => (tag, content tag)) tags) = Ok kts ->
  map fst kts = tags /\
  forall tag, tag ∈ tags ->
    exists rows,
      dict_get tag kts = Ok (Mat3 rows) /\
      reshape3 (map (to_float w) (content tag)) = Ok rows.
Proof.
  induction tags as [|t tags IH]; intros kts Hnd H; simpl in H.
  - injection H as <-. split; [reflexivity|]. intros tag Hin. inversion Hin.
  - apply NoDup_cons in Hnd as (Hnotin & Hnd).
    apply bind_Ok_inv in H as (b & Hb & H).
    apply bind_Ok_inv in Hb as (rows & Hrows & Hb). injection Hb as <-.
    apply bind_Ok_inv in H as (bs & Hbs & H). injection H as <-.
    destruct (IH bs Hnd Hbs) as (Hkeys & Hget).
    split; [simpl; rewrite Hkeys; reflexivity|].
    intros tag Hin. simpl.
    destruct (String.eqb_spec tag t) as [->|Hne].
    + exists rows. split; [reflexivity | exact Hrows].
    + apply elem_of_cons in Hin as [Heq|Hin]; [congruence|].
      apply Hget, Hin.
Qed.

Lemma all_or_some_unrecognized objs :
  Forall (fun o => recognized (kp_class o) = true) objs \/
  Exists (fun o => recognized (kp_class o) = false) objs.
Proof.
  induction objs as [|o objs [IH|IH]].
  - left. constructor.
  - destruct (recognized (kp_class o)) eqn:Hr.
    + left. constructor; assumption.
    + right. left. exact Hr.
  - right. right. exact IH.
Qed.

(** What the dictionary loop leaves for a file whose tags are all
    recognized, as a function of the tag. *)
Lemma fill_keypoints_recognized objs :
  Forall (fun o => recognized (kp_class o) = true) objs ->
  fill_keypoints objs (map (fun key : string => (key, @nil num)) landmark_names)
  = Ok (map (fun tag => (tag, concat (map kp_coord (entries_of tag objs))))
            landmark_names).
Proof.
  intros Hrec.
  assert (Hfill := fill_keypoints_present objs
                     (map (fun key : string => (key, @nil num)) landmark_names)).
  rewrite map_map in Hfill. simpl map in Hfill.
  exact (Hfill landmark_names_NoDup
           (Forall_impl _ _ _ Hrec
              (fun o Ho => proj1 (recognized_elem_of _) Ho))).
Qed.

(** What a returned landmark step says about an existing keypoint file. *)
Lemma keypoint_tensors_Ok_inv w p objs kts :
  kpt_file w p = Some objs ->
  keypoint_tensors w p = Ok kts ->
  Forall (fun o => recognized (kp_class o) = true) objs /\
  map fst kts = landmark_names /\
  forall tag, tag ∈ landmark_names ->
    exists rows,
      dict_get tag kts = Ok (Mat3 rows) /\
      flatten_rows rows
        = map (to_float w) (concat (map kp_coord (entries_of tag objs))) /\
      3 * length rows = length (concat (map kp_coord (entries_of tag objs))).
Proof.
  intros Hfile Hk.
  destruct (all_or_some_unrecognized objs) as [Hrec|Hex].
  - split; [exact Hrec|].
    unfold keypoint_tensors in Hk. rewrite Hfile in Hk.
    rewrite (bind_Ok_eq _ _ _ (fill_keypoints_recognized objs Hrec)) in Hk.
    destruct (tensors_of_dict w
                (fun tag => concat (map kp_coord (entries_of tag objs)))
                landmark_names kts landmark_names_NoDup Hk) as (Hkeys & Hget).
    split; [exact Hkeys|].
    intros tag Hin. destruct (Hget tag Hin) as (rows & Hd & Hr).
    exists rows. split; [exact Hd|].
    destruct (reshape3_flatten _ _ Hr) as (Hf & Hl).
    split; [exact Hf|]. rewrite length_map in Hl. lia.
  - destruct (keypoint_tensors_unknown w p objs Hfile Hex) as (tag & _ & _ & He).
    congruence.
Qed.

(** X6.  Whenever the landmark step returns for an existing keypoint
    file, every class tag of the file is one of the six names, the result
    holds the six names as keys in their fixed order, and the group of a
    tag, read row after row, is the sequence of the components of the
    coordinates of the entries with that tag, in file order: no component
    is lost, added or moved to another group, whatever the number of
    components of each entry. *)
Theorem X6_groups_keep_the_components w p objs kts :
  kpt_file w p = Some objs ->
  keypoint_tensors w p = Ok kts ->
  Forall (fun o => recognized (kp_class o) = true) objs /\
  map fst kts = landmark_names /\
  forall tag, tag ∈ landmark_names ->
    exists rows,
      dict_get tag kts = Ok (Mat3 rows) /\
      flatten_rows rows
        = map (to_float w) (concat (map kp_coord (entries_of tag objs))) /\
      3 * length rows = length (concat (map kp_coord (entries_of tag objs))).
Proof. exact (keypoint_tensors_Ok_inv w p objs kts). Qed.

(** The keys of a returned landmark step, with or without a keypoint file. *)
Lemma keypoint_tensors_keys w p kts :
  keypoint_tensors w p = Ok kts ->
  map fst kts = landmark_names /\
  forall tag, tag ∈ landmark_names -> exists t, dict_get tag kts = Ok t.
Proof.
  intros Hk. destruct (kpt_file w p) as [objs|] eqn:Hfile.
  - destruct (keypoint_tensors_Ok_inv w p objs kts Hfile Hk)
      as (_ & Hkeys & Hget).
    split; [exact Hkeys|]. intros tag Hin.
    destruct (Hget tag Hin) as (rows & Hd & _). eauto.
  - rewrite (keypoint_tensors_None _ _ Hfile) in Hk. injection Hk as <-.
    split; [reflexivity|]. intros tag Hin.
    unfold landmark_names in Hin.
    repeat (apply elem_of_cons in Hin as [->|Hin]; [eexists; reflexivity|]).
    inversion Hin.
Qed.

(** X7.  When the landmark step returns, with or without a keypoint
    file, its result has an entry for each of the six landmark names: the
    six lookups that build the record cannot raise [KeyError]. *)
Theorem X7_six_groups_always_present w p kts :
  keypoint_tensors w p = Ok kts ->
  map fst kts = landmark_names /\
  forall tag, tag ∈ landmark_names -> exists t, dict_get tag kts = Ok t.
Proof. exact (keypoint_tensors_keys w p kts). Qed.

(** The exceptions of the landmark step: [KeyError] for a tag that is
    none of the six names, or the [RuntimeError] of the reshape. *)
Lemma keypoint_tensors_Err w p e :
  keypoint_tensors w p = Err e ->
  (exists tag, recognized tag = false /\ e = KeyError tag) \/ e = RuntimeError.
Proof.
  intros Hk. destruct (kpt_file w p) as [objs|] eqn:Hfile.
  - destruct (all_or_some_unrecognized objs) as [Hrec|Hex].
    + right. unfold keypoint_tensors in Hk. rewrite Hfile in Hk.
      rewrite (bind_Ok_eq _ _ _ (fill_keypoints_recognized objs Hrec)) in Hk.
      apply map_result_Err in Hk as (kv & _ & Hkv).
      destruct (reshape3 (map (to_float w) (snd kv))) as [rows|e'] eqn:Hr;
        simpl in Hkv; [discriminate|].
      injection Hkv as <-. apply reshape3_Err in Hr as (-> & _). reflexivity.
    + left. destruct (keypoint_tensors_unknown w p objs Hfile Hex)
        as (tag & Ht & _ & He).
      exists tag. split; [exact Ht | congruence].
  - rewrite (keypoint_tensors_None _ _ Hfile) in Hk. discriminate.
Qed.

(** X8.  In a keypoint file whose tags are all recognized, a tag whose
    entries hold a number of components that is no multiple of three
    makes the reshape fail: the landmark step raises [RuntimeError] and
    [process_file] returns no record. *)
Theorem X8_odd_component_count_raises_RuntimeError w cfg path g objs tag :
  kpt_file w (py_replace ".obj" "__kpt.json" path) = Some objs ->
  Forall (fun o => recognized (kp_class o) = true) objs ->
  tag ∈ landmark_names ->
  length (concat (map kp_coord (entries_of tag objs))) `mod` 3 <> 0 ->
  keypoint_tensors w (py_replace ".obj" "__kpt.json" path) = Err RuntimeError /\
  exists e, process_file w cfg path g = Err e.
Proof.
  intros Hfile Hrec Htag Hmod.
  assert (Hk : keypoint_tensors w (py_replace ".obj" "__kpt.json" path)
               = Err RuntimeError).
  { destruct (keypoint_tensors w (py_replace ".obj" "__kpt.json" path))
      as [kts|e] eqn:Hk.
    - exfalso.
      destruct (keypoint_tensors_Ok_inv w _ objs kts Hfile Hk)
        as (_ & _ & Hget).
      destruct (Hget tag Htag) as (rows & _ & _ & Hl).
      apply Hmod. rewrite <- Hl. rewrite Nat.mul_comm. apply Nat.Div0.mod_mul.
    - unfold keypoint_tensors in Hk. rewrite Hfile in Hk.
      rewrite (bind_Ok_eq _ _ _ (fill_keypoints_recognized objs Hrec)) in Hk.
      apply map_result_Err in Hk as (kv & _ & Hkv).
      destruct (reshape3 (map (to_float w) (snd kv))) as [rows|e'] eqn:Hr;
        simpl in Hkv; [discriminate|].
      injection Hkv as <-. apply reshape3_Err in Hr as (-> & _). reflexivity. }
  split; [exact Hk|].
  destruct (build_record_landmark_error w cfg path g _ Hk) as ((e' & He') & _).
  exists e'. apply process_file_build_Err, He'.
Qed.

End LandmarksInGeneral.

(** ** Missing annotation files (C6) *)

Section MissingAnnotations.
Context {num flt : Type}.
Implicit Types (w : @World num flt) (cfg : @Config flt) (d : @Data flt).


End MissingAnnotations.



(** ** The exceptions and the results of [process_file] *)

Section Outcomes.
Context {num flt : Type}.
Implicit Types (w : @World num flt) (cfg : @Config flt) (d : @Data flt).

Lemma first_geometry_Err (l : @Loaded num) e :
  first_geometry l = Err e -> e = IndexError /\ l = Several [].
Proof.
  destruct l as [m|[|m ms]]; simpl; intros H; try discriminate.
  injection H as <-. split; reflexivity.
Qed.

Lemma sample_indices_Err w cfg mesh g e :
  sample_indices w cfg mesh g = Err e ->
  e = ValueError /\ vertices mesh = [] /\ 0 < n_sample cfg.
Proof.
  unfold sample_indices, random_choice.
  destruct (length (vertices mesh) <? n_sample cfg)%nat eqn:Hlt; [|discriminate].
  apply Nat.ltb_lt in Hlt.
  destruct (length (vertices mesh) =? 0)%nat eqn:HV; [|discriminate].
  apply Nat.eqb_eq in HV.
  destruct (n_sample cfg =? 0)%nat; [discriminate|].
  intros H. injection H as <-.
  split; [reflexivity|]. split; [|lia].
  destruct (vertices mesh); [reflexivity | discriminate].
Qed.

Lemma segmentation_Err w p idx e :
  segmentation w p idx = Err e -> e = IndexError.
Proof.
  unfold segmentation. destruct (seg_file w p) as [ann|]; [|discriminate].
  destruct (gather (labels ann) idx) as [ls|e1] eqn:Hl; simpl.
  - destruct (gather (instances_of ann) idx) as [ins|e2] eqn:Hi; simpl;
      [discriminate|].
    intros H. injection H as <-. apply gather_Err in Hi as (-> & _). reflexivity.
  - intros H. injection H as <-. apply gather_Err in Hl as (-> & _). reflexivity.
Qed.

Lemma jaw_of_Err path e : jaw_of path = Err e -> e = IndexError.
Proof.
  unfold jaw_of. destruct (_ !! 1); simpl; [discriminate|].
  intros H. injection H as <-. reflexivity.
Qed.

(** X9.  The exceptions [process_file] can raise: the loader's, for a
    file it cannot read; [ValueError], for a mesh without vertices and a
    positive [n_sample]; the assertion error with the mismatch message,
    for a sampler result of another size than [n_sample]; [KeyError], for
    a class tag that is none of the six names; the [RuntimeError] of the
    reshape; and [IndexError].  The hooks apart, nothing else is raised:
    no [KeyError] for a landmark name, and no error of the file system
    for an annotation file that does not exist. *)
Theorem X9_exceptions_of_process_file w cfg path g e :
  process_file w cfg path g = Err e ->
  (load_mesh w path = None /\ e = MeshLoadError path) \/
  (0 < n_sample cfg /\ e = ValueError) \/
  (exists got, got <> n_sample cfg /\
               e = AssertionError (mismatch_message (n_sample cfg) got path)) \/
  (exists tag, recognized tag = false /\ e = KeyError tag) \/
  e = RuntimeError \/
  e = IndexError.
Proof.
  unfold process_file. intros H.
  destruct (build_record w cfg path g) as [[[d idx] g']|e0] eqn:Hb; simpl in H.
  { destruct (rejected cfg d); discriminate. }
  injection H as <-. unfold build_record in Hb.
  destruct (load_mesh w path) as [loaded|] eqn:Hload; simpl in Hb.
  2: { injection Hb as <-. left. split; reflexivity. }
  destruct (first_geometry loaded) as [mesh|e1] eqn:Hmesh; simpl in Hb.
  2: { injection Hb as <-. apply first_geometry_Err in Hmesh as (-> & _).
       do 5 right. reflexivity. }
  destruct (sample_indices w cfg mesh g) as [[idx g']|e1] eqn:Hs; simpl in Hb.
  2: { injection Hb as <-. apply sample_indices_Err in Hs as (-> & _ & Hn).
       right. left. split; [exact Hn | reflexivity]. }
  destruct (length idx =? n_sample cfg)%nat eqn:Hlen; simpl in Hb.
  2: { injection Hb as <-. apply Nat.eqb_neq in Hlen.
       right. right. left. exists (length idx). split; [exact Hlen | reflexivity]. }
  destruct (gather (vertices mesh) idx) as [ps|e1] eqn:Hps; simpl in Hb.
  2: { injection Hb as <-. apply gather_Err in Hps as (-> & _).
       do 5 right. reflexivity. }
  destruct (gather (vertex_normals mesh) idx) as [ns|e1] eqn:Hns; simpl in Hb.
  2: { injection Hb as <-. apply gather_Err in Hns as (-> & _).
       do 5 right. reflexivity. }
  destruct (segmentation w (py_replace ".obj" ".json" path) idx)
    as [[yt it]|e1] eqn:Hseg; simpl in Hb.
  2: { injection Hb as <-. apply segmentation_Err in Hseg as ->.
       do 5 right. reflexivity. }
  destruct (keypoint_tensors w (py_replace ".obj" "__kpt.json" path))
    as [kts|e1] eqn:Hk; simpl in Hb.
  2: { injection Hb as <-.
       destruct (keypoint_tensors_Err _ _ _ Hk) as [(tag & Ht & He)|He].
       - do 3 right. left. exists tag. split; assumption.
       - do 4 right. left. exact He. }
  destruct (jaw_of path) as [j|e1] eqn:Hj; simpl in Hb.
  2: { injection Hb as <-. apply jaw_of_Err in Hj as ->.
       do 5 right. reflexivity. }
  exfalso.
  destruct (keypoint_tensors_keys w _ kts Hk) as (_ & Hget).
  assert (Hin : forall tag, In tag landmark_names -> tag ∈ landmark_names)
    by (intros tag; apply list_elem_of_In).
  destruct (Hget "Mesial") as (t1 & H1); [apply Hin; simpl; tauto|].
  destruct (Hget "Distal") as (t2 & H2); [apply Hin; simpl; tauto|].
  destruct (Hget "Cusp") as (t3 & H3); [apply Hin; simpl; tauto|].
  destruct (Hget "InnerPoint") as (t4 & H4); [apply Hin; simpl; tauto|].
  destruct (Hget "OuterPoint") as (t5 & H5); [apply Hin; simpl; tauto|].
  destruct (Hget "FacialPoint") as (t6 & H6); [apply Hin; simpl; tauto|].
  rewrite H1 in Hb. simpl in Hb. rewrite H2 in Hb. simpl in Hb.
  rewrite H3 in Hb. simpl in Hb. rewrite H4 in Hb. simpl in Hb.
  rewrite H5 in Hb. simpl in Hb. rewrite H6 in Hb. simpl in Hb.
  discriminate.
Qed.

(** X10.  [process_file] returns [None] in one case only: a [pre_filter]
    is configured and answers false on the record that was built.
    Without a [pre_filter] the result is never [None]. *)
Theorem X10_None_only_from_the_filter w cfg path g g' :
  process_file w cfg path g = Ok (None, g') <->
  exists f d idx,
    pre_filter cfg = Some f /\
    build_record w cfg path g = Ok (d, idx, g') /\
    f d = false.
Proof.
  split.
  - intros H. apply process_file_None_inv in H as (d & idx & Hb & Hrej).
    unfold rejected in Hrej. destruct (pre_filter cfg) as [f|] eqn:Hf;
      [|discriminate].
    exists f, d, idx. split; [reflexivity|]. split; [exact Hb|].
    destruct (f d); [discriminate | reflexivity].
  - intros (f & d & idx & Hf & Hb & Hfd).
    rewrite (process_file_of_build _ _ _ _ _ _ _ Hb).
    unfold rejected. rewrite Hf, Hfd. reflexivity.
Qed.

End Outcomes.

(** ** A processing pass and what [get] finds after it *)

Section Passes.
Context {num flt : Type}.
Implicit Types (w : @World num flt) (cfg : @Config flt) (st : @Store flt).

Lemma resolved_single w cfg file p :
  resolved w cfg file = [p] <->
  glob w (raw_dir cfg +:+ "/**/*/*" +:+ hd "" (py_split "." file) +:+ ".obj")
    = [p].
Proof.
  unfold resolved. destruct (glob w _) as [|q [|q' l]]; split; intros H;
    try discriminate; try exact H.
Qed.


(** What one iteration does for an identifier with a single match. *)
Lemma process_one_resolved w cfg st file p :
  resolved w cfg file = [p] ->
  process_one w cfg st file =
    (r <- process_file w cfg p (rng st) ;;
     Ok {| cache := <[osp_join (processed_dir cfg) file := fst r]> (cache st);
           rng := snd r;
           calls := calls st ++ [p] |}).
Proof.
  intros H. apply resolved_single in H. unfold process_one. rewrite H.
  destruct (process_file w cfg p (rng st)) as [[data g']|e]; reflexivity.
Qed.

(** X11.  An exception of [process_file] is not caught by the loop: the
    pass stops at the first identifier whose file fails, with that
    exception, and the identifiers after it are not processed. *)
Theorem X11_a_failing_file_aborts_the_pass w cfg before file after st st1 p e :
  process_files w cfg before st = Ok st1 ->
  resolved w cfg file = [p] ->
  process_file w cfg p (rng st1) = Err e ->
  process_files w cfg (before ++ file :: after) st = Err e.
Proof.
  intros Hbefore Hres Hfail. rewrite process_files_app, Hbefore. simpl.
  rewrite (process_one_resolved _ _ _ _ _ Hres), Hfail. reflexivity.
Qed.





End Passes.

(** ** Relative names, skipped identifiers and the bounds of [get] *)

(** For a second argument that is no absolute path, [os.path.join] puts
    it after a prefix that depends on the first argument only. *)
Lemma osp_join_relative (a b : string) :
  starts_with_slash b = false ->
  osp_join a b =
    (if String.eqb a "" || ends_with_slash a then a else a +:+ "/") +:+ b.
Proof.
  intros Hb. unfold osp_join. rewrite Hb.
  destruct (String.eqb a "" || ends_with_slash a); [reflexivity|].
  rewrite string_app_assoc. reflexivity.
Qed.

Lemma osp_join_inj (a b b' : string) :
  starts_with_slash b = false -> starts_with_slash b' = false ->
  osp_join a b = osp_join a b' -> b = b'.
Proof.
  intros Hb Hb' H. rewrite (osp_join_relative _ _ Hb) in H.
  rewrite (osp_join_relative _ _ Hb') in H.
  eapply String.app_inj, H.
Qed.

Section SkippedAndBounds.
Context {num flt : Type}.
Implicit Types (w : @World num flt) (cfg : @Config flt) (st : @Store flt).


Lemma process_files_calls w cfg files : forall st st',
  process_files w cfg files st = Ok st' ->
  calls st' = calls st ++ flat_map (resolved w cfg) files.
Proof.
  induction files as [|f files IH]; simpl; intros st st' H.
  - injection H as <-. rewrite app_nil_r. reflexivity.
  - apply bind_Ok_inv in H as (st1 & H1 & H).
    rewrite (IH _ _ H). rewrite app_assoc. f_equal.
    unfold process_one, resolved in *.
    destruct (glob w _) as [|p [|q l]].
    + injection H1 as <-. rewrite app_nil_r. reflexivity.
    + apply bind_Ok_inv in H1 as ([data g'] & _ & H1). injection H1 as <-.
      reflexivity.
    + injection H1 as <-. rewrite app_nil_r. reflexivity.
Qed.

(** X14.  A pass that returns has called [process_file] once for every
    occurrence in the manifest of an identifier with a single match, on
    that match, in manifest order, and on nothing else: an identifier
    listed twice is processed twice. *)
Theorem X14_one_call_per_resolved_occurrence w cfg st st' files :
  processed_file_names w cfg = Ok files ->
  process w cfg st = Ok st' ->
  calls st' = calls st ++ flat_map (resolved w cfg) files /\
  length (calls st') <= length (calls st) + length files.
Proof.
  intros Hnames Hpass.
  unfold process in Hpass. rewrite Hnames in Hpass. simpl in Hpass.
  split; [apply process_files_calls, Hpass|].
  apply process_files_grows in Hpass. lia.
Qed.

(** X15.  [get] raises [IndexError] exactly from the length of the
    dataset on; below it, the only failure left is the missing cache
    file of the identifier at that index. *)
Theorem X15_get_bounds w cfg st n idx :
  len w cfg = Ok n ->
  (n <= idx -> get w cfg st idx = Err IndexError) /\
  (idx < n ->
     exists files file,
       processed_file_names w cfg = Ok files /\
       files !! idx = Some file /\
       get w cfg st idx =
         from_opt (OSError (osp_join (processed_dir cfg) file))
                  (cache st !! osp_join (processed_dir cfg) file)).
Proof.
  unfold len, get. intros H.
  destruct (processed_file_names w cfg) as [files|e]; simpl in *; [|discriminate].
  injection H as <-. split; intros Hidx.
  - rewrite (proj2 (lookup_ge_None files idx)) by lia. reflexivity.
  - destruct (lookup_lt_is_Some_2 files idx Hidx) as (file & Hf).
    exists files, file. rewrite Hf. repeat split.
Qed.

(** X16.  When no split file matches the configured split and mode, the
    dataset is empty and nothing signals it: the length is 0, a pass
    returns the store unchanged, and every [get] raises [IndexError]. *)
Theorem X16_no_split_file_gives_an_empty_dataset w cfg :
  glob w (osp_join (osp_join (raw_dir cfg) (split cfg +:+ "_train_test_split"))
                   (mode cfg +:+ "*.txt")) = [] ->
  processed_file_names w cfg = Ok [] /\
  len w cfg = Ok 0 /\
  (forall st, process w cfg st = Ok st) /\
  (forall st idx, get w cfg st idx = Err IndexError).
Proof.
  intros Hglob.
  assert (Hnames : processed_file_names w cfg = Ok []).
  { unfold processed_file_names. cbv zeta. rewrite Hglob. reflexivity. }
  split; [exact Hnames|]. split.
  - unfold len. rewrite Hnames. reflexivity.
  - split.
    + intros st. unfold process. rewrite Hnames. reflexivity.
    + intros st idx. unfold get. rewrite Hnames. reflexivity.
Qed.

End SkippedAndBounds.

(** ** Identifiers with dots *)

Lemma string_app_nil_r (s : string) : s +:+ "" = s.
Proof.
  induction s as [|c s IH]; [reflexivity|].
  rewrite string_app_cons, IH. reflexivity.
Qed.

(** Up to the first occurrence of the separator, splitting on one
    character reads one piece. *)
Lemma split_go_single_first (c : ascii) (a b : string) : forall cur,
  count_char c a = 0 ->
  split_go (String c "") (a +:+ String c b) 0 cur
  = (cur +:+ a) :: split_go (String c "") b 0 "".
Proof.
  induction a as [|x a IH]; intros cur Hc.
  - change ("" +:+ String c b) with (String c b).
    cbn [split_go]. rewrite prefix_single, Ascii.eqb_refl.
    rewrite string_app_nil_r. reflexivity.
  - cbn [count_char] in Hc.
    destruct (Ascii.eqb c x) eqn:Hcx; [discriminate|]. simpl in Hc.
    rewrite string_app_cons. cbn [split_go].
    rewrite prefix_single, Hcx. rewrite (IH _ Hc).
    rewrite string_app_assoc. reflexivity.
Qed.

Lemma py_split_dot_first (a b : string) :
  count_char "." a = 0 -> hd "" (py_split "." (a +:+ "." +:+ b)) = a.
Proof.
  intros Hc. unfold py_split.
  change (a +:+ "." +:+ b) with (a +:+ String "." b).
  rewrite (split_go_single_first "." a b "" Hc). reflexivity.
Qed.

Section Dots.
Context {num flt : Type}.
Implicit Types (w : @World num flt) (cfg : @Config flt) (st : @Store flt).

(** X17.  The mesh of a manifest entry is looked up under the part of
    the file name before its first dot.  For an identifier without a dot
    that is the identifier; an identifier with a dot is cut there, so
    that entries that agree up to their first dot resolve to the same
    mesh file, each saved under its own full name. *)
Theorem X17_lookup_stops_at_the_first_dot w cfg st a b :
  count_char "." a = 0 ->
  resolved w cfg (a +:+ "." +:+ b) = resolved w cfg (a +:+ ".pt") /\
  process_one w cfg st (a +:+ "." +:+ b) =
    match glob w (raw_dir cfg +:+ "/**/*/*" +:+ a +:+ ".obj") with
    | [p] =>
        r <- process_file w cfg p (rng st) ;;
        Ok {| cache := <[osp_join (processed_dir cfg) (a +:+ "." +:+ b) := fst r]>
                         (cache st);
              rng := snd r;
              calls := calls st ++ [p] |}
    | _ => Ok st
    end.
Proof.
  intros Hc. split.
  - unfold resolved. rewrite (py_split_dot_first a b Hc).
    change (a +:+ ".pt") with (a +:+ "." +:+ "pt").
    rewrite (py_split_dot_first a "pt" Hc). reflexivity.
  - unfold process_one. rewrite (py_split_dot_first _ _ Hc).
    destruct (glob w _) as [|p [|q l]]; try reflexivity.
    destruct (process_file w cfg p (rng st)) as [[data g']|e]; reflexivity.
Qed.

End Dots.

(** ** The processed directory *)

Lemma list_ascii_of_string_app (s t : string) :
  list_ascii_of_string (s +:+ t)
  = list_ascii_of_string s ++ list_ascii_of_string t.
Proof.
  induction s as [|c s IH]; [reflexivity|].
  rewrite string_app_cons. simpl. rewrite IH. reflexivity.
Qed.

Lemma list_ascii_of_string_inj (s t : string) :
  list_ascii_of_string s = list_ascii_of_string t -> s = t.
Proof.
  intros H. rewrite <- (string_of_list_ascii_of_string s).
  rewrite <- (string_of_list_ascii_of_string t). rewrite H. reflexivity.
Qed.

Lemma string_app_inv_tail (s1 s2 t : string) : s1 +:+ t = s2 +:+ t -> s1 = s2.
Proof.
  intros H. apply list_ascii_of_string_inj.
  apply (f_equal list_ascii_of_string) in H.
  rewrite !list_ascii_of_string_app in H.
  eapply app_inv_tail, H.
Qed.

(** No name ends both in [_training] and in [_testing]. *)
Lemma training_is_not_testing (s1 s2 : string) :
  s1 +:+ "_" +:+ "training" <> s2 +:+ "_" +:+ "testing".
Proof.
  intros H. apply (f_equal list_ascii_of_string) in H.
  rewrite !list_ascii_of_string_app in H.
  change (list_ascii_of_string "_" ++ list_ascii_of_string "training")
    with (list_ascii_of_string "_t" ++ list_ascii_of_string "raining") in H.
  rewrite !app_assoc in H.
  apply app_inj_2 in H as (_ & H); [discriminate | reflexivity].
Qed.

Section ProcessedDir.
Context {flt : Type}.
Implicit Types (cfg : @Config flt).

(** X18.  Two configurations on the same root use the same processed
    directory exactly when they have the same split name and the same
    mode: training and test records, and the records of different
    splits, are never mixed, while configurations that differ only in
    [n_sample] or in their hooks share one cache. *)
Theorem X18_processed_dir_separates_split_and_mode cfg1 cfg2 :
  root cfg1 = root cfg2 ->
  (processed_dir cfg1 = processed_dir cfg2 <->
   split cfg1 = split cfg2 /\ is_train cfg1 = is_train cfg2).
Proof.
  intros Hroot. unfold processed_dir. rewrite Hroot. split.
  - intros H. apply osp_join_inj in H; [|reflexivity..].
    apply String.app_inj in H.
    unfold mode in H.
    destruct (is_train cfg1), (is_train cfg2).
    + split; [|reflexivity]. eapply string_app_inv_tail, H.
    + exfalso. eapply training_is_not_testing, H.
    + exfalso. symmetry in H. eapply training_is_not_testing, H.
    + split; [|reflexivity]. eapply string_app_inv_tail, H.
  - intros (Hs & Ht). unfold mode. rewrite Hs, Ht. reflexivity.
Qed.

End ProcessedDir.

(** ** The further properties on the scenarios *)

Lemma X1_replacement_branch_in_range_witness :
  exists idx ps,
    sample_indices demo_world (demo_cfg 5 None None) demo_mesh 0 = Ok (idx, 5) /\
    length idx = 5 /\
    Forall (fun j => j < 3) idx /\
    gather (vertices demo_mesh) idx = Ok ps /\ length ps = 5.
Proof.
  assert (H0 : 0 < length (vertices demo_mesh)) by (simpl; lia).
  assert (H1 : length (vertices demo_mesh) < n_sample (demo_cfg 5 None None))
    by (simpl; lia).
  exact (X1_replacement_branch_in_range demo_world (demo_cfg 5 None None)
           demo_mesh 0 H0 H1).
Defined.

Lemma X2_empty_mesh_raises_ValueError_witness :
  process_file (custom_world empty_mesh None None) (demo_cfg 2 None None)
    upper_obj 0 = Err ValueError.
Proof.
  assert (Hn : 0 < n_sample (demo_cfg 2 None None)) by (simpl; lia).
  exact (X2_empty_mesh_raises_ValueError (custom_world empty_mesh None None)
           (demo_cfg 2 None None) upper_obj 0 (Single empty_mesh) empty_mesh
           eq_refl eq_refl eq_refl Hn).
Defined.


Lemma X4_short_annotation_raises_IndexError_witness :
  process_file (custom_world demo_mesh (Some short_seg) None)
    (demo_cfg 2 None None) upper_obj 0 = Err IndexError.
Proof.
  assert (Hex : Exists (fun j => length (labels short_seg) <= j \/
                                 length (instances_of short_seg) <= j) [0; 1])
    by (right; left; left; simpl; lia).
  exact (X4_short_annotation_raises_IndexError
           (custom_world demo_mesh (Some short_seg) None) (demo_cfg 2 None None)
           upper_obj 0 (Single demo_mesh) demo_mesh [0; 1] 0
           [(0, 0, 0); (10, 0, 0)]%Z [(0, 0, 1); (0, 0, 2)]%Z short_seg
           eq_refl eq_refl eq_refl eq_refl eq_refl eq_refl eq_refl Hex).
Defined.

Lemma X5_jaw_needs_an_underscore_witness :
  jaw_of plain_obj = Err IndexError /\
  (exists e, process_file demo_world (demo_cfg 2 None None) plain_obj 0 = Err e) /\
  (exists j, jaw_of upper_obj = Ok j).
Proof.
  destruct (X5_jaw_needs_an_underscore demo_world (demo_cfg 2 None None)
              plain_obj 0) as (Hno & _).
  destruct (X5_jaw_needs_an_underscore demo_world (demo_cfg 2 None None)
              upper_obj 0) as (_ & Hyes).
  destruct (Hno eq_refl) as (Hj & He).
  split; [exact Hj|]. split; [exact He|].
  apply Hyes. vm_compute. lia.
Defined.

Lemma X6_groups_keep_the_components_witness :
  exists rows,
    dict_get "Cusp"
      [("Mesial", Mat3 [(4, 5, 6)%Z]); ("Distal", Mat3 []);
       ("Cusp", Mat3 [(1, 2, 3); (7, 8, 9)]%Z); ("InnerPoint", Mat3 []);
       ("OuterPoint", Mat3 []); ("FacialPoint", Mat3 [])]
      = Ok (Mat3 rows) /\
    flatten_rows rows = [1; 2; 3; 7; 8; 9]%Z /\
    3 * length rows = 6.
Proof.
  destruct (X6_groups_keep_the_components demo_world
              (py_replace ".obj" "__kpt.json" upper_obj) demo_kpts
              [("Mesial", Mat3 [(4, 5, 6)%Z]); ("Distal", Mat3 []);
               ("Cusp", Mat3 [(1, 2, 3); (7, 8, 9)]%Z); ("InnerPoint", Mat3 []);
               ("OuterPoint", Mat3 []); ("FacialPoint", Mat3 [])]
              eq_refl eq_refl) as (_ & _ & Hget).
  apply (Hget "Cusp"). apply list_elem_of_In. simpl. tauto.
Defined.

Lemma X7_six_groups_always_present_witness :
  exists t,
    dict_get "FacialPoint"
      (map (fun key : string => (key, @Mat3 Z [])) landmark_names) = Ok t.
Proof.
  destruct (X7_six_groups_always_present demo_world
              (py_replace ".obj" "__kpt.json" lower_obj)
              (map (fun key : string => (key, @Mat3 Z [])) landmark_names)
              eq_refl) as (_ & Hget).
  apply Hget. apply list_elem_of_In. simpl. tauto.
Defined.

Lemma X8_odd_component_count_raises_RuntimeError_witness :
  keypoint_tensors (custom_world demo_mesh None (Some pair_kpts))
    (py_replace ".obj" "__kpt.json" upper_obj) = Err RuntimeError /\
  exists e,
    process_file (custom_world demo_mesh None (Some pair_kpts))
      (demo_cfg 2 None None) upper_obj 0 = Err e.
Proof.
  assert (Hrec : Forall (fun o : @Keypoint Z => recognized (kp_class o) = true)
                        pair_kpts) by (repeat constructor).
  assert (Htag : "Cusp" ∈ landmark_names)
    by (apply list_elem_of_In; simpl; tauto).
  assert (Hmod : length (concat (map kp_coord (entries_of "Cusp" pair_kpts)))
                 `mod` 3 <> 0) by (vm_compute; lia).
  exact (X8_odd_component_count_raises_RuntimeError
           (custom_world demo_mesh None (Some pair_kpts)) (demo_cfg 2 None None)
           upper_obj 0 pair_kpts "Cusp" eq_refl Hrec Htag Hmod).
Defined.

Lemma X9_exceptions_of_process_file_witness :
  process_file demo_world (demo_cfg 2 None None) plain_obj 0 = Err IndexError /\
  ((load_mesh demo_world plain_obj = None /\ IndexError = MeshLoadError plain_obj) \/
   (0 < n_sample (demo_cfg 2 None None) /\ IndexError = ValueError) \/
   (exists got, got <> n_sample (demo_cfg 2 None None) /\
      IndexError = AssertionError
                     (mismatch_message (n_sample (demo_cfg 2 None None)) got
                                       plain_obj)) \/
   (exists tag, recognized tag = false /\ IndexError = KeyError tag) \/
   IndexError = RuntimeError \/
   IndexError = IndexError).
Proof.
  assert (H : process_file demo_world (demo_cfg 2 None None) plain_obj 0
              = Err IndexError) by reflexivity.
  split; [exact H|].
  exact (X9_exceptions_of_process_file demo_world (demo_cfg 2 None None)
           plain_obj 0 IndexError H).
Defined.

Lemma X10_None_only_from_the_filter_witness :
  exists f d idx,
    pre_filter (demo_cfg 2 None (Some reject_all)) = Some f /\
    build_record demo_world (demo_cfg 2 None (Some reject_all)) upper_obj 0
      = Ok (d, idx, 0) /\
    f d = false.
Proof.
  apply (proj1 (X10_None_only_from_the_filter demo_world
                  (demo_cfg 2 None (Some reject_all)) upper_obj 0 0)).
  reflexivity.
Defined.

Lemma X11_a_failing_file_aborts_the_pass_witness :
  process_files (demo_world_with one_short demo_kpts) (demo_cfg 2 None None)
    ([] ++ "p7_upper.pt" :: ["p8_lower.pt"]) empty_store
  = Err (AssertionError
           "Sampled points mismatch: Expected 2, but got 1 for data/raw/upper/p7/p7_upper.obj").
Proof.
  exact (X11_a_failing_file_aborts_the_pass
           (demo_world_with one_short demo_kpts) (demo_cfg 2 None None)
           [] "p7_upper.pt" ["p8_lower.pt"] empty_store empty_store upper_obj _
           eq_refl eq_refl eq_refl).
Defined.

Lemma demo_pass_returned :
  process demo_world (demo_cfg 2 None None) empty_store = Ok demo_pass.
Proof. vm_compute. reflexivity. Qed.



Lemma X14_one_call_per_resolved_occurrence_witness :
  calls demo_pass = [] ++ [upper_obj; lower_obj; lower_obj] /\
  length (calls demo_pass) <= 0 + 5.
Proof.
  exact (X14_one_call_per_resolved_occurrence demo_world (demo_cfg 2 None None)
           empty_store demo_pass demo_files eq_refl demo_pass_returned).
Defined.

Lemma X15_get_bounds_witness :
  get demo_world (demo_cfg 2 None None) demo_pass 5 = Err IndexError.
Proof.
  destruct (X15_get_bounds demo_world (demo_cfg 2 None None) demo_pass 5 5
              eq_refl) as (Hout & _).
  apply Hout. lia.
Defined.

Lemma X16_no_split_file_gives_an_empty_dataset_witness :
  processed_file_names demo_world other_split_cfg = Ok [] /\
  len demo_world other_split_cfg = Ok 0 /\
  (forall st, process demo_world other_split_cfg st = Ok st) /\
  (forall st idx, get demo_world other_split_cfg st idx = Err IndexError).
Proof.
  exact (X16_no_split_file_gives_an_empty_dataset demo_world other_split_cfg
           eq_refl).
Defined.

Lemma X17_lookup_stops_at_the_first_dot_witness :
  resolved demo_world (demo_cfg 2 None None) ("p7_upper" +:+ "." +:+ "v2.pt")
    = [upper_obj].
Proof.
  destruct (X17_lookup_stops_at_the_first_dot demo_world (demo_cfg 2 None None)
              empty_store "p7_upper" "v2.pt" eq_refl) as (Hres & _).
  rewrite Hres. reflexivity.
Defined.

Lemma X18_processed_dir_separates_split_and_mode_witness :
  processed_dir (demo_cfg 2 None None) = processed_dir (demo_cfg 5 None None) /\
  processed_dir (demo_cfg 2 None None) = "data/processed_Teeth3DS_training" /\
  processed_dir test_cfg = "data/processed_Teeth3DS_testing".
Proof.
  split; [|split; reflexivity].
  apply (proj2 (X18_processed_dir_separates_split_and_mode
                  (demo_cfg 2 None None) (demo_cfg 5 None None) eq_refl)).
  split; reflexivity.
Defined.
